(** * massrun_TALYS: run directories and TALYS input files

    A shallow embedding of [Scripts/massrun_TALYS.py].  The script reads two
    tables (nuclides, reactions), names and creates a run directory, and
    writes a key-value input file followed by one [massexcess] line per
    nuclide row whose Z, A and mass excess are numeric.

    Python values are modelled as the script meets them: integers as [Z],
    floats as IEEE-754 binary64 values ([spec_float], the inductive
    specification of the Standard Library), text as [string].  The file
    system, the clock and the console form an explicit [world] that every
    effectful function threads through a small exception monad. *)

From Stdlib Require Import ZArith Bool List Ascii String Decimal DecimalString.
From Stdlib Require DecimalFacts DecimalPos.
From Stdlib Require Import SpecFloat Lia.
From stdpp Require Import base option list gmap strings.

Import ListNotations.
Local Open Scope string_scope.
Local Open Scope Z_scope.

(** ** Python exceptions *)

(** The exception classes the script can meet.  [OSError_other] stands for
    the remaining [OSError] subclasses and carries the message that
    [str(e)] would give. *)
Inductive exn : Type :=
| KeyError
| IndexError
| ValueError
| OverflowError
| FileExistsError
| FileNotFoundError
| PermissionError
| NotADirectoryError
| IsADirectoryError
| OSError_other (msg : string).

Definition str_exn (e : exn) : string :=
  match e with
  | KeyError => "KeyError"
  | IndexError => "single positional indexer is out-of-bounds"
  | ValueError => "ValueError"
  | OverflowError => "cannot convert float infinity to integer"
  | FileExistsError => "File exists"
  | FileNotFoundError => "No such file or directory"
  | PermissionError => "Permission denied"
  | NotADirectoryError => "Not a directory"
  | IsADirectoryError => "Is a directory"
  | OSError_other msg => msg
  end.

Inductive result (A : Type) : Type :=
| Ok (a : A)
| Raise (e : exn).
Arguments Ok {A} a.
Arguments Raise {A} e.

Global Instance result_ret : MRet result := fun A a => Ok a.

Global Instance result_bind : MBind result := fun A B k r =>
  match r with
  | Ok a => k a
  | Raise e => Raise e
  end.

(** ** Numbers *)

Module Num.

(** binary64 *)
Definition prec : Z := 53.
Definition emax : Z := 1024.

(** [float(z)] for a Python int within the binary64 range: the nearest
    double, ties to even. *)
Definition float_of_int (z : Z) : spec_float :=
  binary_normalize prec emax z 0 false.

(** The double nearest to [n / d], for [n] and [d] exactly representable:
    what a decimal literal such as [-53.9] (= -539/10) denotes. *)
Definition float_of_ratio (n d : Z) : spec_float :=
  SFdiv prec emax (float_of_int n) (float_of_int d).

Definition is_nan (f : spec_float) : bool :=
  match f with S754_nan => true | _ => false end.

Definition is_finite (f : spec_float) : bool :=
  match f with S754_zero _ | S754_finite _ _ _ => true | _ => false end.

(** [int(f)]: truncation toward zero; NaN and the infinities raise. *)
Definition int_of_float (f : spec_float) : result Z :=
  match f with
  | S754_zero _ => Ok 0
  | S754_finite s m e =>
      let a := if 0 <=? e then Z.shiftl (Z.pos m) e
               else Z.shiftr (Z.pos m) (- e) in
      Ok (if s then - a else a)
  | S754_infinity _ => Raise OverflowError
  | S754_nan => Raise ValueError
  end.

(** A value of a numeric pandas column as Python sees it when iterating:
    an [int] (column of dtype int64) or a [float] (dtype float64). *)
Inductive num : Type :=
| NInt (z : Z)
| NFloat (f : spec_float).

Definition is_int (n : num) : bool :=
  match n with NInt _ => true | NFloat _ => false end.

(** [pd.isna] on a numeric value *)
Definition isna (n : num) : bool :=
  match n with NInt _ => false | NFloat f => is_nan f end.

(** A value that [int()] turns into an integer. *)
Definition finite (n : num) : bool :=
  match n with NInt _ => true | NFloat f => is_finite f end.

(** int64 to float64 when a column is upcast *)
Definition upcast (n : num) : num :=
  match n with NInt z => NFloat (float_of_int z) | NFloat _ => n end.

(** [int(x)] *)
Definition py_int (n : num) : result Z :=
  match n with NInt z => Ok z | NFloat f => int_of_float f end.

(** [float(x)] *)
Definition py_float (n : num) : spec_float :=
  match n with NInt z => float_of_int z | NFloat f => f end.

End Num.
Export Num.

(** ** Formatting *)

Module Fmt.

(** [str(z)] for a Python int *)
Definition str_int (z : Z) : string :=
  NilZero.string_of_int (Z.to_int z).

(** left-pad with ['0'] to [width] characters *)
Definition zfill (width : nat) (s : string) : string :=
  String.concat EmptyString (repeat "0" (width - String.length s)) ++ s.

(** [n / 2^k] rounded to the nearest integer, ties to even *)
Definition round_half_even_shr (n k : Z) : Z :=
  let q := Z.shiftr n k in
  let r := n - Z.shiftl q k in
  let half := Z.shiftl 1 (k - 1) in
  if r <? half then q
  else if half <? r then q + 1
  else if Z.even q then q else q + 1.

(** The magnitude of a finite double times 1000, correctly rounded to an
    integer: the digits that [format(x, '.3f')] prints. *)
Definition milli (m : positive) (e : Z) : Z :=
  if 0 <=? e then Z.shiftl (Z.pos m * 1000) e
  else round_half_even_shr (Z.pos m * 1000) (- e).

Definition fixed3 (sign : bool) (n : Z) : string :=
  (if sign then "-" else EmptyString) ++ str_int (n / 1000) ++ "."
    ++ zfill 3 (str_int (n mod 1000)).

(** [f"{x:.3f}"] for a Python float *)
Definition format_3f (f : spec_float) : string :=
  match f with
  | S754_zero s => fixed3 s 0
  | S754_finite s m e => fixed3 s (milli m e)
  | S754_infinity s => if s then "-inf" else "inf"
  | S754_nan => "nan"
  end.

(** [f"{x:02d}"] as [strftime] uses it for day, month and year *)
Definition format_02d (n : Z) : string := zfill 2 (str_int n).

End Fmt.
Export Fmt.

(** ** State and exceptions

    [SE S A] is a computation over a state [S] that returns an [A] or raises
    a Python exception; the state reached so far is kept in both cases. *)

Definition SE (S A : Type) : Type := S -> result A * S.

Global Instance SE_ret {S} : MRet (SE S) := fun A a s => (Ok a, s).

Global Instance SE_bind {S} : MBind (SE S) := fun A B k c s =>
  match c s with
  | (Ok a, s') => k a s'
  | (Raise e, s') => (Raise e, s')
  end.

Definition raise {S A} (e : exn) : SE S A := fun s => (Raise e, s).

(** a pure step that may raise *)
Definition lift {S A} (r : result A) : SE S A := fun s => (r, s).

(** [try: c  except <class>: h e], with [h e = None] when no [except]
    clause matches [e] *)
Definition try_except {S A} (c : SE S A) (h : exn -> option (SE S A)) : SE S A :=
  fun s =>
    match c s with
    | (Ok a, s') => (Ok a, s')
    | (Raise e, s') =>
        match h e with
        | Some k => k s'
        | None => (Raise e, s')
        end
    end.

(** ** The world: file system, spreadsheets, clock, console *)

(** A path is the list of its components below the root, the root first. *)
Definition path : Type := list string.

Definition parent (p : path) : path := removelast p.

(** A file-system entry with its owner-write permission. *)
Inductive node : Type :=
| Dir (writable : bool)
| File (writable : bool) (content : string).

(** [datetime.datetime] as far as [strftime("%d%m%y")] reads it *)
Record datetime : Type := { year : Z; month : Z; day : Z }.

(** ** Tables *)

(** A spreadsheet cell as pandas hands it over: a Python [int], a [float]
    (an empty cell is NaN) or text. *)
Inductive cell : Type :=
| CInt (z : Z)
| CFloat (f : spec_float)
| CStr (s : string).

(** A row of [nucl_info]: the columns Ydin, N, Z, A, MEJYFL, MEAME20. *)
Record nuclide : Type := {
  col_Ydin : cell;
  col_N : cell;
  col_Z : cell;
  col_A : cell;
  col_MEJYFL : cell;
  col_MEAME20 : cell
}.

(** A row of [reactions]: the columns Target, Projectile, Ejectile, Compound
    (strings, as the docstring of [make_dir] has them). *)
Record reaction : Type := {
  col_Target : string;
  col_Projectile : string;
  col_Ejectile : string;
  col_Compound : string
}.

(** The workbook behind [pd.read_excel]: Sheet1 and Sheet2. *)
Record workbook : Type := {
  Sheet1 : list nuclide;
  Sheet2 : list reaction
}.

(** What [print] sends to the console; the rendering of a data frame is
    left symbolic. *)
Inductive output : Type :=
| Text (s : string)
| TextReactions (s : string) (df : list reaction)
| TextNuclides (s : string) (df : list nuclide).

Record world : Type := {
  fs : gmap path node;
  books : gmap path workbook;
  now : datetime;
  stdout : list output
}.

Abbreviation IO := (SE world).

Definition set_fs (w : world) (m : gmap path node) : world :=
  {| fs := m; books := books w; now := now w; stdout := stdout w |}.

(** the root directory always exists *)
Definition node_at (w : world) (p : path) : option node :=
  match p with
  | [] => Some (Dir true)
  | _ => fs w !! p
  end.

(** the console after one more [print] *)
Definition say (w : world) (o : output) : world :=
  {| fs := fs w; books := books w; now := now w; stdout := stdout w ++ [o] |}.

Definition print (o : output) : IO unit := fun w => (Ok tt, say w o).

(** *** Directory creation *)

(** what creating a new entry [p] meets in the directory that holds it *)
Definition check_parent (w : world) (p : path) : result unit :=
  match node_at w (parent p) with
  | None => Raise FileNotFoundError
  | Some (File _ _) => Raise NotADirectoryError
  | Some (Dir false) => Raise PermissionError
  | Some (Dir true) => Ok tt
  end.

(** [os.mkdir(p)] *)
Definition os_mkdir (p : path) : IO unit := fun w =>
  match node_at w p with
  | Some _ => (Raise FileExistsError, w)
  | None =>
      match check_parent w p with
      | Ok _ => (Ok tt, set_fs w (<[p := Dir true]> (fs w)))
      | Raise e => (Raise e, w)
      end
  end.

Definition is_dir (p : path) : IO bool := fun w =>
  (Ok (match node_at w p with Some (Dir _) => true | _ => false end), w).

(** [Path.mkdir(parents, exist_ok)]: [os.mkdir] first; on
    [FileNotFoundError] with [parents] set (and not at the root, where
    [self.parent == self]) the parent is created with
    [parents=True, exist_ok=True] and the directory itself is retried with
    [parents=False]; any other [OSError] is raised again unless [exist_ok]
    holds and the path is a directory.  [depth] bounds the way up to the
    root. *)
Fixpoint Path_mkdir (depth : nat) (p : path) (parents exist_ok : bool) : IO unit :=
  try_except (os_mkdir p) (fun e => Some (
    match e with
    | FileNotFoundError =>
        if negb parents || bool_decide (parent p = p) then raise e
        else
          match depth with
          | O => raise e
          | S k => Path_mkdir k (parent p) true true ;;
                   Path_mkdir k p false exist_ok
          end
    | _ =>
        d ← is_dir p;
        if negb exist_ok || negb d then raise e else mret tt
    end)).

(** *** Files *)

(** A file being written: [f.write(s)] appends to the buffer. *)
Abbreviation FileIO := (SE string).

Definition f_write (s : string) : FileIO unit := fun buf => (Ok tt, buf ++ s).

(** run [body] on a fresh buffer and store what it wrote at [p], also when
    [body] raises: leaving the [with] block closes the file either way *)
Definition write_through (p : path) (wr : bool) (body : FileIO unit) : IO unit :=
  fun w =>
    let '(r, buf) := body EmptyString in
    (r, set_fs w (<[p := File wr buf]> (fs w))).

(** [with open(p, "x") as f: body(f)] *)
Definition with_open_x (p : path) (body : FileIO unit) : IO unit := fun w =>
  match node_at w p with
  | Some _ => (Raise FileExistsError, w)
  | None =>
      match check_parent w p with
      | Ok _ => write_through p true body w
      | Raise e => (Raise e, w)
      end
  end.

(** [with open(p, "w") as f: body(f)] *)
Definition with_open_w (p : path) (body : FileIO unit) : IO unit := fun w =>
  match node_at w p with
  | Some (Dir _) => (Raise IsADirectoryError, w)
  | Some (File false _) => (Raise PermissionError, w)
  | Some (File true _) => write_through p true body w
  | None =>
      match check_parent w p with
      | Ok _ => write_through p true body w
      | Raise e => (Raise e, w)
      end
  end.

(** ** The script *)

Definition nl : string := String (ascii_of_nat 10) EmptyString.

(** [repr] of the two float constants that [write_input] formats *)
Definition repr_0_1 : string := "0.1".
Definition repr_1_0E_25 : string := "1e-25".

(** [series[key]] on a column with the default integer index: the key is a
    row label, so anything outside [0 .. len-1] is a [KeyError]. *)
Definition getitem {A} (col : list A) (key : Z) : result A :=
  if 0 <=? key then
    match col !! Z.to_nat key with
    | Some x => Ok x
    | None => Raise KeyError
    end
  else Raise KeyError.

(** [df.iloc[0]] *)
Definition iloc0 {A} (df : list A) : result A :=
  match df with
  | x :: _ => Ok x
  | [] => Raise IndexError
  end.

(** [column == target] for a target string *)
Definition cell_eq_str (c : cell) (target : string) : bool :=
  match c with
  | CStr s => bool_decide (s = target)
  | _ => false
  end.

Fixpoint for_each {S A} (l : list A) (body : A -> SE S unit) : SE S unit :=
  match l with
  | [] => mret tt
  | x :: l' => body x ;; for_each l' body
  end.

(** [nucl_info] with the three columns that [assign] adds *)
Record me_row : Type := {
  base : nuclide;
  Z_num : num;
  A_num : num;
  ME_num : num
}.

Fixpoint assign (df : list nuclide) (zs as_ mes : list num) : list me_row :=
  match df, zs, as_, mes with
  | r :: df', z :: zs', a :: as', me :: mes' =>
      {| base := r; Z_num := z; A_num := a; ME_num := me |}
        :: assign df' zs' as' mes'
  | _, _, _, _ => []
  end.

(** one tuple of [df[["Z_num", "A_num", "ME_num"]].itertuples(index=False)] *)
Definition tuple_of (r : me_row) : num * num * num := (Z_num r, A_num r, ME_num r).

(** a row missing any of the three values *)
Definition any_na (r : me_row) : bool :=
  isna (Z_num r) || isna (A_num r) || isna (ME_num r).

(** [dropna(subset=["Z_num", "A_num", "ME_num"])] *)
Definition dropna (df : list me_row) : list me_row :=
  List.filter (fun r => negb (any_na r)) df.

(** [strftime("%d%m%y")] *)
Definition strftime_dmy (t : datetime) : string :=
  format_02d (day t) ++ format_02d (month t) ++ format_02d (year t mod 100).

Definition directory_name_of (today projectile target : string) (l s m : Z) : string :=
  "Run-" ++ today ++ "_" ++ projectile ++ target ++ "-"
    ++ str_int l ++ str_int s ++ str_int m.

Definition input_path_of (runs : path) (run_dir_name : string) : path :=
  (runs ++ [run_dir_name; (run_dir_name ++ "_input.txt")%string])%list.

Record args : Type := {
  runs : path;
  data : path;
  ldmodel : Z;
  strength : Z;
  massmodel : Z
}.

(** the console messages of [make_dir] *)
Definition msg_creating (directory_name : string) : output :=
  Text (nl ++ "Creating directory with the name: " ++ nl ++ directory_name).

Definition msg_to_path (runs : path) : output :=
  Text (nl ++ "To the Path: " ++ nl ++ String.concat "/" runs).

Definition msg_dir_created (directory_name : string) : output :=
  Text (nl ++ "Directory '" ++ directory_name ++ "' created successfully.").

Definition msg_dir_exists (directory_name : string) : output :=
  Text (nl ++ "Directory '" ++ directory_name ++ "' already exists.").

Definition msg_dir_denied (directory_name : string) : output :=
  Text (nl ++ "Permission denied: Unable to create '" ++ directory_name ++ "'.").

Definition msg_dir_error (e : exn) : output :=
  Text (nl ++ "An error occurred: " ++ str_exn e).

(** the two console messages of [make_input] *)
Definition msg_created (run_dir_name : string) : output :=
  Text (nl ++ "Created new input file with name " ++ run_dir_name ++ "_input.txt.").

Definition msg_overwriting : output :=
  Text (nl ++ "Warning: File already exists. Overwriting to existing file...").

(** What the script takes from Python and pandas to read a number out of
    text.  The properties below hold whatever these two functions do. *)
Class Library : Type := {
  (** [int(s)] on text: [None] when Python raises [ValueError] *)
  int_of_str : string -> option Z;
  (** [pd.to_numeric(..., errors="coerce")] on one text value: the number it
      parses to, NaN when it does not parse *)
  to_numeric_str : string -> num
}.

Section Script.

Context {lib : Library}.

(** [int(x)] on a cell *)
Definition int_cell (c : cell) : result Z :=
  match c with
  | CInt z => Ok z
  | CFloat f => int_of_float f
  | CStr s =>
      match int_of_str s with
      | Some z => Ok z
      | None => Raise ValueError
      end
  end.

Definition to_numeric_cell (c : cell) : num :=
  match c with
  | CInt z => NInt z
  | CFloat f => NFloat f
  | CStr s => to_numeric_str s
  end.

(** [pd.to_numeric(column, errors="coerce")]: every value is converted on
    its own; the column is int64 when all of them are integers and float64
    otherwise. *)
Definition to_numeric (col : list cell) : list num :=
  let vals := map to_numeric_cell col in
  if forallb is_int vals then vals else map upcast vals.

Definition parse_data (data_path : path) : IO (list nuclide * list reaction) :=
  fun w =>
    match books w !! data_path with
    | Some wb => (Ok (Sheet1 wb, Sheet2 wb), w)
    | None => (Raise FileNotFoundError, w)
    end.

Definition make_dir (projectile target : string) (l s m : Z) (runs : path)
  : IO string :=
  fun w =>
    let TIME := now w in
    let today := strftime_dmy TIME in
    let directory_name := directory_name_of today projectile target l s m in
    let directory_path := (runs ++ [directory_name])%list in
    (print (msg_creating directory_name) ;;
     print (msg_to_path runs) ;;
     try_except
       (Path_mkdir (length directory_path) directory_path true false ;;
        print (msg_dir_created directory_name))
       (fun e => Some (
          match e with
          | FileExistsError => print (msg_dir_exists directory_name)
          | PermissionError => print (msg_dir_denied directory_name)
          | _ => print (msg_dir_error e)
          end)) ;;
     mret directory_name) w.

(** the body of the loop over the rows of [df_me] *)
Definition massexcess_entry (t : num * num * num) : FileIO unit :=
  let '(Z_, A_, ME) := t in
  zi ← lift (py_int Z_);
  ai ← lift (py_int A_);
  f_write ("massexcess " ++ str_int zi ++ " " ++ str_int ai ++ " "
             ++ format_3f (py_float ME) ++ nl).

Definition write_input
    (projectile : string) (Z_target A_target l s m : Z)
    (tuples : list (num * num * num)) : FileIO unit :=
  f_write ("energy " ++ repr_0_1 ++ nl) ;;
  f_write ("projectile " ++ projectile ++ nl) ;;
  f_write ("element " ++ str_int Z_target ++ nl) ;;
  f_write ("mass " ++ str_int A_target ++ nl) ;;
  f_write ("ldmodel " ++ str_int l ++ nl) ;;
  f_write ("strength " ++ str_int s ++ nl) ;;
  f_write ("massmodel " ++ str_int m ++ nl) ;;
  f_write ("astro y" ++ nl) ;;
  f_write ("transeps " ++ repr_1_0E_25 ++ nl) ;;
  f_write ("xseps " ++ repr_1_0E_25 ++ nl) ;;
  f_write ("popeps " ++ repr_1_0E_25 ++ nl) ;;
  f_write ("gnorm y" ++ nl) ;;
  f_write ("outlevels y" ++ nl) ;;
  f_write ("outdensity y" ++ nl) ;;
  f_write ("outgamma y" ++ nl) ;;
  f_write ("expmass y" ++ nl) ;;
  for_each tuples massexcess_entry.

Definition df_me_of (nucl_info : list nuclide) : list me_row :=
  let ME_colum := map col_MEJYFL nucl_info in
  dropna (assign nucl_info
            (to_numeric (map col_Z nucl_info))
            (to_numeric (map col_A nucl_info))
            (to_numeric ME_colum)).

Definition make_input
    (nucl_info : list nuclide) (reactions : list reaction) (process : Z)
    (l s m : Z) (runs : path) (run_dir_name : string) : IO unit :=
  let input_path := input_path_of runs run_dir_name in
  target ← lift (getitem (map col_Target reactions) process);
  projectile ← lift (getitem (map col_Projectile reactions) process);
  row ← lift (iloc0 (List.filter (fun r => cell_eq_str (col_Ydin r) target) nucl_info));
  Z_target ← lift (int_cell (col_Z row));
  A_target ← lift (int_cell (col_A row));
  let df_me := df_me_of nucl_info in
  let body :=
    write_input projectile Z_target A_target l s m
      (map tuple_of df_me) in
  try_except
    (print (msg_created run_dir_name) ;;
     with_open_x input_path body)
    (fun e =>
       match e with
       | FileExistsError =>
           Some (print msg_overwriting ;;
                 with_open_w input_path body)
       | _ => None
       end).

Definition make_run : IO unit := mret tt.

(** *** The two stages of [make_input], named for the proofs *)

(** the three values of a row all convert to a number *)
Definition row_numeric (r : nuclide) : bool :=
  negb (isna (to_numeric_cell (col_Z r))
        || isna (to_numeric_cell (col_A r))
        || isna (to_numeric_cell (col_MEJYFL r))).

(** the lookups before the [try] block *)
Definition lookup_target
    (nucl_info : list nuclide) (reactions : list reaction) (process : Z)
  : result (string * Z * Z) :=
  target ← getitem (map col_Target reactions) process;
  projectile ← getitem (map col_Projectile reactions) process;
  row ← iloc0 (List.filter (fun r => cell_eq_str (col_Ydin r) target) nucl_info);
  Z_target ← int_cell (col_Z row);
  A_target ← int_cell (col_A row);
  mret (projectile, Z_target, A_target).

(** the [try] block *)
Definition write_file (input_path : path) (run_dir_name : string)
    (body : FileIO unit) : IO unit :=
  try_except
    (print (msg_created run_dir_name) ;;
     with_open_x input_path body)
    (fun e =>
       match e with
       | FileExistsError =>
           Some (print msg_overwriting ;;
                 with_open_w input_path body)
       | _ => None
       end).

(** the rows handed to the loop of [write_input] *)
Definition tuples_of (nucl_info : list nuclide) : list (num * num * num) :=
  map tuple_of (df_me_of nucl_info).

(** [main] with the reaction index as a parameter; the script fixes it. *)
Definition main_at (process : Z) (a : args) : IO unit :=
  let RUNS_PATH := runs a in
  let DATA_PATH := data a in
  let ldmodel := ldmodel a in
  let strength := strength a in
  let massmodel := massmodel a in
  '(nucl_info, reactions) ← parse_data DATA_PATH;
  target ← lift (getitem (map col_Target reactions) process);
  projectile ← lift (getitem (map col_Projectile reactions) process);
  print (Text target) ;;
  print (Text projectile) ;;
  print (TextReactions (nl ++ "Listed processes in Excel: " ++ nl) reactions) ;;
  print (TextNuclides (nl ++ "And relevant nuclear information available: " ++ nl)
           nucl_info) ;;
  run_dir ← make_dir projectile target ldmodel strength massmodel RUNS_PATH;
  make_input nucl_info reactions process ldmodel strength massmodel RUNS_PATH run_dir.

(** [process = 0] *)
Definition main (a : args) : IO unit := main_at 0 a.

End Script.

(** ** Reading the outcome *)

(** the content of the regular file at [p] *)
Definition file_at (w : world) (p : path) : option string :=
  match fs w !! p with
  | Some (File _ c) => Some c
  | _ => None
  end.

(** [p] can be opened for writing, by [open(p, "x")] when it is absent and
    by [open(p, "w")] when it is a writable file *)
Definition openable (w : world) (p : path) : bool :=
  match node_at w p with
  | None => match check_parent w p with Ok _ => true | Raise _ => false end
  | Some (File wr _) => wr
  | Some (Dir _) => false
  end.

(** the proton and mass numbers of a row are finite *)
Definition finite_ZA (r : me_row) : Prop :=
  finite (Z_num r) = true /\ finite (A_num r) = true.

(** the integer that [int(x)] gives on a finite value *)
Definition int_value (n : num) : Z :=
  match py_int n with Ok z => z | Raise _ => 0 end.





(** the lines of a text, split at the newline character *)
Fixpoint lines_from (cur : string) (s : string) : list string :=
  match s with
  | EmptyString => match cur with EmptyString => [] | _ => [cur] end
  | String c s' =>
      if Ascii.eqb c (ascii_of_nat 10) then cur :: lines_from EmptyString s'
      else lines_from (cur ++ String c EmptyString) s'
  end.

Definition lines (s : string) : list string := lines_from EmptyString s.

(** a text from its pieces, one after the other *)
Definition text (pieces : list string) : string :=
  fold_right String.append EmptyString pieces.

(** ** The specification's wording *)

Module Spec.

(** key, single space, value, newline *)
Definition key_value (k v : string) : string := k ++ " " ++ v ++ nl.

(** the sixteen fixed lines of section 4.3, in order *)
Definition fixed_lines (projectile : string) (Z_target A_target l s m : Z)
  : list string :=
  [ key_value "energy" "0.1";
    key_value "projectile" projectile;
    key_value "element" (str_int Z_target);
    key_value "mass" (str_int A_target);
    key_value "ldmodel" (str_int l);
    key_value "strength" (str_int s);
    key_value "massmodel" (str_int m);
    key_value "astro" "y";
    key_value "transeps" "1e-25";
    key_value "xseps" "1e-25";
    key_value "popeps" "1e-25";
    key_value "gnorm" "y";
    key_value "outlevels" "y";
    key_value "outdensity" "y";
    key_value "outgamma" "y";
    key_value "expmass" "y" ].

(** [massexcess <Z integer> <A integer> <mass excess, 3 decimals>] *)
Definition massexcess_line (r : me_row) : string :=
  "massexcess " ++ str_int (int_value (Z_num r)) ++ " "
    ++ str_int (int_value (A_num r)) ++ " "
    ++ format_3f (py_float (ME_num r)) ++ nl.

Definition digit (d : Z) : ascii := ascii_of_nat (48 + Z.to_nat d).

(** a number below one hundred as two digits, zero-padded *)
Definition two_digits (n : Z) : string :=
  String (digit (n / 10)) (String (digit (n mod 10)) EmptyString).

Definition DDMMYY (t : datetime) : string :=
  two_digits (day t) ++ two_digits (month t) ++ two_digits (year t mod 100).

(** the name format as section 4.2 words it, a hyphen after the date *)
Definition directory_name_hyphen
    (t : datetime) (projectile target : string) (l s m : Z) : string :=
  "Run-" ++ DDMMYY t ++ "-" ++ projectile ++ target ++ "-"
    ++ str_int l ++ str_int s ++ str_int m.

(** the name format of scenario A, an underscore after the date *)
Definition directory_name_underscore
    (t : datetime) (projectile target : string) (l s m : Z) : string :=
  "Run-" ++ DDMMYY t ++ "_" ++ projectile ++ target ++ "-"
    ++ str_int l ++ str_int s ++ str_int m.

(** a date that [datetime] can hold *)
Definition valid_date (t : datetime) : Prop :=
  1 <= year t <= 9999 /\ 1 <= month t <= 12 /\ 1 <= day t <= 31.

(** two nuclide rows that differ at most in N and MEAME20 *)
Definition agree (r1 r2 : nuclide) : Prop :=
  col_Ydin r1 = col_Ydin r2 /\ col_Z r1 = col_Z r2
  /\ col_A r1 = col_A r2 /\ col_MEJYFL r1 = col_MEJYFL r2.

End Spec.

(** ** Concrete inputs *)

Module Sample.

(** Stand-ins for Python's [int] on text and for pandas' conversion of a
    text value, used on plain decimal integers and on text with no numeric
    reading, where they agree with the library functions. *)
Definition int_plain (s : string) : option Z :=
  Z.of_int <$> NilZero.int_of_string s.

Definition numeric_plain (s : string) : num :=
  match int_plain s with
  | Some z => NInt z
  | None => NFloat S754_nan
  end.

Definition plain : Library :=
  {| int_of_str := int_plain; to_numeric_str := numeric_plain |}.

Definition nuclide_row (ydin : string) (n z a : Z) (me_jyfl me_ame : spec_float)
  : nuclide :=
  {| col_Ydin := CStr ydin; col_N := CInt n; col_Z := CInt z; col_A := CInt a;
     col_MEJYFL := CFloat me_jyfl; col_MEAME20 := CFloat me_ame |}.

(** scenario A *)
Definition Ni56 : nuclide :=
  nuclide_row "56Ni" 28 28 56 (float_of_ratio (-539) 10) (float_of_int (-54)).

Definition p_Ni56 : reaction :=
  {| col_Target := "56Ni"; col_Projectile := "p";
     col_Ejectile := "g"; col_Compound := "57Cu" |}.

(** scenario B: a mass excess that is the text N/A *)
Definition Cu57_no_mass : nuclide :=
  {| col_Ydin := CStr "57Cu"; col_N := CInt 28; col_Z := CInt 29;
     col_A := CInt 57; col_MEJYFL := CStr "N/A";
     col_MEAME20 := CFloat (float_of_ratio (-4731) 100) |}.

(** a row whose proton number reads as infinity *)
Definition X_infinite_Z : nuclide :=
  {| col_Ydin := CStr "X"; col_N := CInt 1; col_Z := CFloat (S754_infinity false);
     col_A := CInt 1; col_MEJYFL := CFloat (float_of_int 1);
     col_MEAME20 := CFloat (float_of_int 1) |}.

Definition Zn60 : nuclide :=
  nuclide_row "60Zn" 30 30 60 (float_of_ratio (-54173) 1000)
    (float_of_ratio (-54174) 1000).

(** a target whose proton number is missing *)
Definition Ni56_no_Z : nuclide :=
  {| col_Ydin := CStr "56Ni"; col_N := CInt 28; col_Z := CFloat S754_nan;
     col_A := CInt 56; col_MEJYFL := CFloat (float_of_ratio (-539) 10);
     col_MEAME20 := CFloat (float_of_int (-54)) |}.


(** the same nuclide with other N and MEAME20 entries *)
Definition Ni56_other_columns : nuclide :=
  {| col_Ydin := CStr "56Ni"; col_N := CStr "?"; col_Z := CInt 28;
     col_A := CInt 56; col_MEJYFL := CFloat (float_of_ratio (-539) 10);
     col_MEAME20 := CFloat S754_nan |}.

Definition three_reactions : list reaction :=
  [ p_Ni56;
    {| col_Target := "57Cu"; col_Projectile := "p";
       col_Ejectile := "g"; col_Compound := "58Zn" |};
    {| col_Target := "60Zn"; col_Projectile := "a";
       col_Ejectile := "g"; col_Compound := "64Ge" |} ].

Definition new_year_2025 : datetime := {| year := 2025; month := 1; day := 1 |}.

Definition data_xlsx : path := ["data.xlsx"].
Definition runs_dir : path := ["runs"].

(** an empty disk holding only the workbook [wb] *)
Definition fresh (wb : workbook) : world :=
  {| fs := ∅; books := {[ data_xlsx := wb ]};
     now := new_year_2025; stdout := [] |}.

Definition default_args : args :=
  {| runs := runs_dir; data := data_xlsx;
     ldmodel := 5; strength := 8; massmodel := 2 |}.

Definition scenario_A : world :=
  fresh {| Sheet1 := [Ni56]; Sheet2 := [p_Ni56] |}.

(** scenario C: three reactions, and an index of five *)
Definition three_nuclides : list nuclide := [Ni56; Cu57_no_mass; Zn60].

Definition scenario_C : world :=
  fresh {| Sheet1 := three_nuclides; Sheet2 := three_reactions |}.

(** a workbook whose reaction sheet is empty *)
Definition no_reactions : world :=
  fresh {| Sheet1 := three_nuclides; Sheet2 := [] |}.

Definition run_A : string := "Run-010125_p56Ni-582".

(** the disk once [runs/Run-010125_p56Ni-582] exists *)
Definition with_run_dir (w : world) : world :=
  set_fs w (<[ (runs_dir ++ [run_A])%list := Dir true ]>
              (<[ runs_dir := Dir true ]> (fs w))).

(** [runs] exists and is read-only *)
Definition read_only_runs (w : world) : world :=
  set_fs w (<[ runs_dir := Dir false ]> (fs w)).

(** [runs] is a regular file *)
Definition runs_is_file (w : world) : world :=
  set_fs w (<[ runs_dir := File true EmptyString ]> (fs w)).

End Sample.

(** the outcome of [make_dir] for p on 56Ni with 5, 8, 2: what it returns,
    its last message, and the file system it leaves *)
Definition make_dir_outcome (w : world)
  : result string * option output * gmap path node :=
  let r := make_dir "p" "56Ni" 5 8 2 Sample.runs_dir w in
  (fst r, last (stdout (snd r)), fs (snd r)).

(** ** The file system around the run directory *)




(** every entry lies in a directory *)
Definition wf_fs (w : world) : Prop :=
  forall p n, fs w !! p = Some n ->
              exists b, node_at w (parent p) = Some (Dir b).

(** the report of [make_dir] for an exception of [mkdir] *)
Definition msg_dir_failed (directory_name : string) (e : exn) : output :=
  match e with
  | FileExistsError => msg_dir_exists directory_name
  | PermissionError => msg_dir_denied directory_name
  | _ => msg_dir_error e
  end.

(** [w'] has everything [w] had, and directories besides *)
Definition only_adds_dirs (w w' : world) : Prop :=
  (forall q n, fs w !! q = Some n -> fs w' !! q = Some n)
  /\ (forall q n, fs w' !! q = Some n ->
                  fs w !! q = Some n \/ (n = Dir true /\ node_at w q = None))
  /\ books w' = books w
  /\ now w' = now w.



(** ** Further concrete inputs *)

Module Cases.

(** the run directory of scenario A holding a read-only input file *)
Definition read_only_input : world :=
  set_fs (Sample.with_run_dir Sample.scenario_A)
    (<[ input_path_of Sample.runs_dir Sample.run_A := File false "old" ]>
       (fs (Sample.with_run_dir Sample.scenario_A))).

(** a table whose second row has an infinite proton number, and its rows as
    the loop of [write_input] gets them: the column Z is float64 *)
Definition infinite_in_the_middle : list nuclide :=
  [Sample.Ni56; Sample.X_infinite_Z; Sample.Zn60].

Definition row_Ni56 : me_row :=
  {| base := Sample.Ni56; Z_num := NFloat (float_of_int 28); A_num := NInt 56;
     ME_num := NFloat (float_of_ratio (-539) 10) |}.

Definition row_X : me_row :=
  {| base := Sample.X_infinite_Z; Z_num := NFloat (S754_infinity false);
     A_num := NInt 1; ME_num := NFloat (float_of_int 1) |}.

Definition row_Zn60 : me_row :=
  {| base := Sample.Zn60; Z_num := NFloat (float_of_int 30); A_num := NInt 60;
     ME_num := NFloat (float_of_ratio (-54173) 1000) |}.

(** a mass excess entered as the integer -54, in a column that holds a
    decimal number as well *)
Definition Ni56_integer_mass : nuclide :=
  {| col_Ydin := CStr "56Ni"; col_N := CInt 28; col_Z := CInt 28;
     col_A := CInt 56; col_MEJYFL := CInt (-54);
     col_MEAME20 := CFloat (float_of_int (-54)) |}.

Definition row_Ni56_integer_mass : me_row :=
  {| base := Ni56_integer_mass; Z_num := NInt 28; A_num := NInt 56;
     ME_num := NFloat (float_of_int (-54)) |}.

End Cases.

Ltac one_of_the_lines := repeat first [left; reflexivity | right].

(** * Properties *)

(** ** Formatting *)

(** a property of the numbers below [bound], checked one by one *)
Lemma below_by_cases (bound : nat) (P : Z -> bool) :
  forallb (fun k => P (Z.of_nat k)) (seq 0 bound) = true ->
  forall n, 0 <= n < Z.of_nat bound -> P n = true.
Proof.
  intros Hall n Hn.
  rewrite forallb_forall in Hall.
  specialize (Hall (Z.to_nat n)).
  rewrite Z2Nat.id in Hall by lia.
  apply Hall, in_seq. lia.
Qed.

Lemma format_02d_two_digits (n : Z) :
  0 <= n < 100 -> format_02d n = Spec.two_digits n.
Proof.
  intros Hn.
  apply String.eqb_eq.
  apply (below_by_cases 100
           (fun k => String.eqb (format_02d k) (Spec.two_digits k)));
    [vm_compute; reflexivity | exact Hn].
Qed.

Lemma strftime_dmy_DDMMYY (t : datetime) :
  Spec.valid_date t -> strftime_dmy t = Spec.DDMMYY t.
Proof.
  intros (Hy & Hm & Hd).
  unfold strftime_dmy, Spec.DDMMYY.
  rewrite !format_02d_two_digits; [reflexivity | | lia | lia].
  apply Z.mod_pos_bound. lia.
Qed.

Lemma DDMMYY_length (t : datetime) : String.length (Spec.DDMMYY t) = 6%nat.
Proof. reflexivity. Qed.










(** ** Rounding an integer to a float never gives NaN *)

Lemma shr_1_nonneg (mrs : shr_record) :
  0 <= shr_m mrs -> 0 <= shr_m (shr_1 mrs).
Proof.
  destruct mrs as [m r s]. simpl.
  destruct m as [|[p|p|]|p]; simpl; lia.
Qed.

Lemma iter_pos_preserves {A} (f : A -> A) (P : A -> Prop) :
  (forall x, P x -> P (f x)) ->
  forall n x, P x -> P (SpecFloat.iter_pos f n x).
Proof.
  intros Hf. induction n as [n IH|n IH|]; intros x Hx; simpl; auto.
Qed.

Lemma shr_fexp_nonneg (m e : Z) (l : location) :
  0 <= m -> 0 <= shr_m (fst (shr_fexp prec emax m e l)).
Proof.
  intros Hm. unfold shr_fexp, shr.
  assert (H0 : 0 <= shr_m (shr_record_of_loc m l))
    by (destruct l as [|[| |]]; exact Hm).
  destruct (fexp prec emax (Zdigits2 m + e) - e) as [|p|p]; simpl; try exact H0.
  apply (iter_pos_preserves shr_1 (fun x => 0 <= shr_m x)); [|exact H0].
  exact shr_1_nonneg.
Qed.

Lemma round_nearest_even_nonneg (mx : Z) (lx : location) :
  0 <= mx -> 0 <= round_nearest_even mx lx.
Proof.
  intros Hm. unfold round_nearest_even.
  destruct lx as [|[| |]]; try destruct (Z.even mx); lia.
Qed.

Lemma binary_round_aux_not_nan (sx : bool) (mx ex : Z) (lx : location) :
  0 <= mx -> is_nan (binary_round_aux prec emax sx mx ex lx) = false.
Proof.
  intros Hm. unfold binary_round_aux.
  pose proof (shr_fexp_nonneg mx ex lx Hm) as H1.
  destruct (shr_fexp prec emax mx ex lx) as [mrs' e']. simpl in H1.
  pose proof (shr_fexp_nonneg _ e' loc_Exact
                (round_nearest_even_nonneg _ (loc_of_shr_record mrs') H1)) as H2.
  destruct (shr_fexp prec emax _ e' loc_Exact) as [mrs'' e'']. simpl in H2.
  destruct (shr_m mrs'') as [|p|p]; [reflexivity | | lia].
  destruct (e'' <=? emax - prec); reflexivity.
Qed.

Lemma float_of_int_not_nan (z : Z) : is_nan (float_of_int z) = false.
Proof.
  unfold float_of_int, binary_normalize, binary_round.
  destruct z as [|p|p]; [reflexivity| |];
    destruct (shl_align _ _ _) as [mz ez];
    apply binary_round_aux_not_nan; lia.
Qed.

(** ** Strings *)

Lemma append_assoc (a b c : string) : (a ++ b) ++ c = a ++ (b ++ c).
Proof.
  induction a as [|x a IH]; [reflexivity|].
  change (String x ((a ++ b) ++ c) = String x (a ++ (b ++ c))).
  f_equal. exact IH.
Qed.

Lemma append_nil_r (a : string) : a ++ EmptyString = a.
Proof.
  induction a as [|x a IH]; [reflexivity|].
  change (String x (a ++ EmptyString) = String x a).
  f_equal. exact IH.
Qed.

Lemma text_cons (x : string) (l : list string) : text (x :: l) = x ++ text l.
Proof. reflexivity. Qed.

Lemma text_app (l1 l2 : list string) : text (l1 ++ l2) = text l1 ++ text l2.
Proof.
  induction l1 as [|x l1 IH]; [reflexivity|].
  change (x ++ text (l1 ++ l2) = (x ++ text l1) ++ text l2).
  rewrite IH. symmetry. apply append_assoc.
Qed.

(** ** The monad *)

Lemma bind_Ok {S A B} (c : SE S A) (k : A -> SE S B) (s s' : S) (a : A) :
  c s = (Ok a, s') -> (c ≫= k) s = k a s'.
Proof. intros H. unfold mbind, SE_bind. now rewrite H. Qed.

Lemma bind_lift {S A B} (r : result A) (k : A -> SE S B) (s : S) :
  (lift r ≫= k) s = match r with Ok a => k a s | Raise e => (Raise e, s) end.
Proof. destruct r; reflexivity. Qed.

Lemma bind_f_write {B} (t : string) (k : unit -> FileIO B) (buf : string) :
  (f_write t ≫= k) buf = k tt (buf ++ t).
Proof. reflexivity. Qed.

Lemma bind_print {B} (o : output) (k : unit -> IO B) (w : world) :
  (print o ≫= k) w = k tt (say w o).
Proof. reflexivity. Qed.

Lemma node_at_say (w : world) (o : output) (p : path) :
  node_at (say w o) p = node_at w p.
Proof. destruct p; reflexivity. Qed.

Lemma check_parent_say (w : world) (o : output) (p : path) :
  check_parent (say w o) p = check_parent w p.
Proof. unfold check_parent. now rewrite node_at_say. Qed.

(** ** Writing the lines *)

Lemma py_int_finite (n : num) : finite n = true -> py_int n = Ok (int_value n).
Proof.
  unfold int_value.
  destruct n as [z|[sg|sg| |sg m e]]; simpl; intros H;
    try discriminate; reflexivity.
Qed.

(** an infinite value stops [int()] *)
Lemma py_int_infinite (n : num) :
  finite n = false -> isna n = false -> py_int n = Raise OverflowError.
Proof.
  destruct n as [z|[sg|sg| |sg m e]]; simpl; intros H1 H2;
    try discriminate; reflexivity.
Qed.

Lemma massexcess_entry_finite (r : me_row) (buf : string) :
  finite_ZA r ->
  massexcess_entry (tuple_of r) buf = (Ok tt, buf ++ Spec.massexcess_line r).
Proof.
  intros [HZ HA]. unfold massexcess_entry, tuple_of, Spec.massexcess_line.
  cbv beta iota.
  rewrite bind_lift, (py_int_finite _ HZ).
  rewrite bind_lift, (py_int_finite _ HA).
  reflexivity.
Qed.


Lemma write_input_fixed_lines projectile Z_target A_target l s m tuples buf :
  write_input projectile Z_target A_target l s m tuples buf
  = for_each tuples massexcess_entry
      (buf ++ text (Spec.fixed_lines projectile Z_target A_target l s m)).
Proof.
  unfold write_input.
  rewrite !bind_f_write.
  f_equal.
  unfold Spec.fixed_lines, Spec.key_value, text, fold_right, repr_0_1, repr_1_0E_25.
  rewrite !append_assoc. reflexivity.
Qed.


(** ** The run directory *)

Lemma length_parent (p : path) : length (parent p) = pred (length p).
Proof.
  unfold parent. rewrite removelast_firstn_len, length_take. lia.
Qed.

Lemma parent_root (p : path) : parent p = p -> p = [].
Proof.
  intros H. apply (f_equal (@length string)) in H.
  rewrite length_parent in H. destruct p; [reflexivity | simpl in H; lia].
Qed.

(** Without [parents] the depth is never looked at. *)
Lemma Path_mkdir_flat d d' p exist_ok w :
  Path_mkdir d p false exist_ok w = Path_mkdir d' p false exist_ok w.
Proof.
  destruct d, d'; simpl; unfold try_except;
    destruct (os_mkdir p w) as [[[]|e] w1]; try reflexivity;
    destruct e; reflexivity.
Qed.

(** The length of the path is depth enough: a larger bound changes
    nothing, the way up ends at the root, which exists. *)
Lemma Path_mkdir_depth_enough n :
  forall p, length p = n ->
  forall d, (n <= d)%nat ->
  forall parents exist_ok w,
    Path_mkdir d p parents exist_ok w = Path_mkdir n p parents exist_ok w.
Proof.
  induction n as [|k IH]; intros p Hp d Hd parents exist_ok w.
  - destruct p; [|discriminate]. destruct d; reflexivity.
  - destruct d as [|d]; [lia|].
    simpl. unfold try_except.
    destruct (os_mkdir p w) as [[[]|e] w1]; [reflexivity|].
    destruct e; try reflexivity.
    destruct (negb parents || bool_decide (parent p = p)); [reflexivity|].
    unfold mbind, SE_bind.
    rewrite (IH (parent p)) by (rewrite ?length_parent; lia).
    destruct (Path_mkdir k (parent p) true true w1) as [[[]|e1] w2];
      [apply Path_mkdir_flat | reflexivity].
Qed.

Lemma os_mkdir_stdout p w r w' :
  os_mkdir p w = (r, w') -> stdout w' = stdout w.
Proof.
  unfold os_mkdir.
  destruct (node_at w p); [intros [= _ <-]; reflexivity|].
  destruct (check_parent w p); intros [= _ <-]; reflexivity.
Qed.

(** [mkdir] prints nothing. *)
Lemma Path_mkdir_stdout depth :
  forall p parents exist_ok w r w',
    Path_mkdir depth p parents exist_ok w = (r, w') -> stdout w' = stdout w.
Proof.
  induction depth as [|k IH]; intros p parents exist_ok w r w';
    simpl; unfold try_except;
    destruct (os_mkdir p w) as [[[]|e] w1] eqn:Hos;
    apply os_mkdir_stdout in Hos;
    try (intros [= _ <-]; exact Hos);
    destruct e;
    try (unfold mbind, SE_bind, is_dir, raise, mret, SE_ret;
         destruct (negb exist_ok || negb _);
         intros [= _ <-]; exact Hos).
  - destruct (negb parents || bool_decide (parent p = p));
      intros [= _ <-]; exact Hos.
  - destruct (negb parents || bool_decide (parent p = p));
      [intros [= _ <-]; exact Hos|].
    unfold mbind, SE_bind.
    destruct (Path_mkdir k (parent p) true true w1) as [[[]|e1] w2] eqn:H1;
      apply IH in H1.
    + intros H2. apply IH in H2. congruence.
    + intros [= _ <-]. congruence.
Qed.

(** Whatever [mkdir] does, [make_dir] prints one report and returns the
    name. *)
Lemma make_dir_result projectile target l s m runs w :
  let name := directory_name_of (strftime_dmy (now w)) projectile target l s m in
  exists w' report,
    make_dir projectile target l s m runs w = (Ok name, w')
    /\ stdout w' = (stdout w ++ [msg_creating name; msg_to_path runs; report])%list
    /\ (report = msg_dir_created name
        \/ report = msg_dir_exists name
        \/ report = msg_dir_denied name
        \/ exists e, report = msg_dir_error e).
Proof.
  intros name. unfold make_dir. fold name.
  rewrite !bind_print.
  set (w0 := say (say w (msg_creating name)) (msg_to_path runs)).
  set (p := (runs ++ [name])%list).
  assert (Hout : forall w1 o,
             stdout w1 = stdout w0 ->
             stdout (say w1 o)
             = (stdout w ++ [msg_creating name; msg_to_path runs; o])%list).
  { intros w1 o H1. simpl. rewrite H1. simpl.
    rewrite <- !app_assoc. reflexivity. }
  unfold mbind at 1, SE_bind at 1, try_except.
  unfold mbind at 1, SE_bind at 1.
  destruct (Path_mkdir (length p) p true false w0) as [[[]|e] w1] eqn:Hmk;
    apply Path_mkdir_stdout in Hmk.
  - exists (say w1 (msg_dir_created name)), (msg_dir_created name).
    split; [reflexivity|]. split; [apply Hout, Hmk | auto].
  - exists (say w1 (match e with
                    | FileExistsError => msg_dir_exists name
                    | PermissionError => msg_dir_denied name
                    | _ => msg_dir_error e
                    end)).
    eexists. split; [destruct e; reflexivity|].
    split; [apply Hout, Hmk|].
    destruct e; eauto 6.
Qed.


Lemma directory_name_underscore_eq (t : datetime) projectile target l s m :
  Spec.valid_date t ->
  directory_name_of (strftime_dmy t) projectile target l s m
  = Spec.directory_name_underscore t projectile target l s m.
Proof.
  intros Ht. unfold directory_name_of, Spec.directory_name_underscore.
  now rewrite (strftime_dmy_DDMMYY t Ht).
Qed.

(** C3, amended.  For every projectile, target, parameters and valid date
    of invocation, the name that [make_dir] computes and returns is
    [Run-<DDMMYY>_<projectile><target>-<ldmodel><strength><massmodel>], with
    an underscore after the date, DDMMYY being the two-digit zero-padded
    day, month and year. *)
Theorem make_dir_name_format projectile target l s m runs w :
  Spec.valid_date (now w) ->
  exists w',
    make_dir projectile target l s m runs w
    = (Ok (Spec.directory_name_underscore (now w) projectile target l s m), w').
Proof.
  intros Ht.
  destruct (make_dir_result projectile target l s m runs w)
    as (w' & report & Hrun & _).
  exists w'. rewrite Hrun.
  now rewrite (directory_name_underscore_eq _ _ _ _ _ _ Ht).
Qed.

(** ** Looking up a row *)

Lemma lookup_map {A B} (f : A -> B) (l : list A) (n : nat) :
  map f l !! n = option_map f (l !! n).
Proof.
  revert n. induction l as [|x l IH]; intros [|n]; simpl; auto.
Qed.

Lemma getitem_map_Ok {A B} (f : A -> B) (l : list A) (key : Z) (x : A) :
  0 <= key -> l !! Z.to_nat key = Some x -> getitem (map f l) key = Ok (f x).
Proof.
  intros Hk Hx. unfold getitem.
  destruct (Z.leb_spec 0 key); [|lia].
  now rewrite lookup_map, Hx.
Qed.

Lemma getitem_out_of_range {A} (l : list A) (key : Z) :
  ~ (0 <= key < Z.of_nat (length l)) -> getitem l key = Raise KeyError.
Proof.
  intros Hk. unfold getitem.
  destruct (Z.leb_spec 0 key); [|reflexivity].
  destruct (l !! Z.to_nat key) eqn:Hx; [|reflexivity].
  apply lookup_lt_Some in Hx. lia.
Qed.

Lemma file_at_insert (w w' : world) (p : path) (wr : bool) (c : string) :
  fs w' = <[p := File wr c]> (fs w) -> file_at w' p = Some c.
Proof. intros H. unfold file_at. now rewrite H, lookup_insert_eq. Qed.

(** ** Opening the file *)


(** On an existing writable file, [open(.., "x")] raises [FileExistsError],
    the warning is printed and the file is overwritten. *)
Lemma write_file_overwrite p name body c old w :
  node_at w p = Some (File true old) ->
  body EmptyString = (Ok tt, c) ->
  write_file p name body w
  = (Ok tt, set_fs (say (say w (msg_created name)) msg_overwriting)
              (<[p := File true c]> (fs w))).
Proof.
  intros Hp Hb.
  unfold write_file, try_except. rewrite bind_print.
  unfold with_open_x. rewrite node_at_say, Hp.
  rewrite bind_print. unfold with_open_w, write_through.
  rewrite !node_at_say, Hp, Hb. reflexivity.
Qed.


(** Whenever the [try] block ends normally, the file holds what the body
    wrote and is writable. *)
Lemma write_file_Ok_inv p name body w w' :
  write_file p name body w = (Ok tt, w') ->
  exists c, body EmptyString = (Ok tt, c)
            /\ fs w' = <[p := File true c]> (fs w)
            /\ node_at w' p = Some (File true c).
Proof.
  unfold write_file, try_except. rewrite bind_print.
  unfold with_open_x. rewrite node_at_say.
  destruct (node_at w p) as [n|] eqn:Hp.
  - (* the path exists: the overwrite branch *)
    rewrite bind_print. unfold with_open_w, write_through.
    rewrite !node_at_say, Hp.
    destruct n as [wr|[|] old]; try discriminate.
    destruct (body EmptyString) as [r c] eqn:Hb.
    intros [= -> <-]. exists c. repeat split.
    destruct p as [|x p]; [discriminate Hp|].
    simpl. apply lookup_insert_eq.
  - (* the path is free *)
    rewrite check_parent_say.
    assert (Hne : p <> []) by (intros ->; discriminate Hp).
    unfold check_parent.
    destruct (node_at w (parent p)) as [[[|]|wr old]|]; try discriminate.
    unfold write_through.
    destruct (body EmptyString) as [r c] eqn:Hb.
    destruct r as [[]|e].
    + intros [= <-]. exists c. repeat split.
      destruct p as [|x p]; [congruence|].
      simpl. apply lookup_insert_eq.
    + destruct e; try discriminate.
      rewrite bind_print. unfold with_open_w, write_through.
      rewrite node_at_say.
      destruct p as [|x p]; [congruence|].
      simpl. rewrite lookup_insert_eq, Hb. discriminate.
Qed.

(** ** The input file writer *)

Section Properties.

Context {lib : Library}.

(** *** The rows that survive *)

Lemma isna_upcast (n : num) : isna (upcast n) = isna n.
Proof.
  destruct n as [z|f]; [|reflexivity].
  simpl. apply float_of_int_not_nan.
Qed.

Lemma to_numeric_isna (col : list cell) :
  map isna (to_numeric col) = map (fun c => isna (to_numeric_cell c)) col.
Proof.
  unfold to_numeric.
  destruct (forallb is_int (map to_numeric_cell col)); rewrite !map_map;
    [reflexivity|].
  apply map_ext. intros c. apply isna_upcast.
Qed.

(** [dropna] after [assign] keeps the rows none of whose three values is
    missing, in the order of the table. *)
Lemma base_dropna_assign (df : list nuclide) (zs as_ ms : list num)
    (fz fa fm : nuclide -> bool) :
  map isna zs = map fz df ->
  map isna as_ = map fa df ->
  map isna ms = map fm df ->
  map base (dropna (assign df zs as_ ms))
  = List.filter (fun r => negb (fz r || fa r || fm r)) df.
Proof.
  revert zs as_ ms.
  induction df as [|r df IH]; intros zs as_ ms Hz Ha Hm; [reflexivity|].
  destruct zs as [|z zs]; [discriminate|].
  destruct as_ as [|a as_]; [discriminate|].
  destruct ms as [|me ms]; [discriminate|].
  simpl in Hz, Ha, Hm.
  injection Hz as Hz1 Hz. injection Ha as Ha1 Ha. injection Hm as Hm1 Hm.
  simpl. unfold any_na at 1. simpl.
  rewrite Hz1, Ha1, Hm1.
  fold (dropna (assign df zs as_ ms)).
  destruct (negb (fz r || fa r || fm r)); simpl; rewrite (IH _ _ _ Hz Ha Hm);
    reflexivity.
Qed.

Lemma df_me_rows (nucl_info : list nuclide) :
  map base (df_me_of nucl_info) = List.filter row_numeric nucl_info.
Proof.
  unfold df_me_of.
  rewrite (base_dropna_assign _ _ _ _
             (fun r => isna (to_numeric_cell (col_Z r)))
             (fun r => isna (to_numeric_cell (col_A r)))
             (fun r => isna (to_numeric_cell (col_MEJYFL r))));
    [reflexivity | | |]; rewrite to_numeric_isna, map_map; reflexivity.
Qed.

(** [make_input] is its lookups followed by its [try] block. *)
Lemma make_input_stages nucl_info reactions process l s m runs run_dir_name w :
  make_input nucl_info reactions process l s m runs run_dir_name w
  = match lookup_target nucl_info reactions process with
    | Ok (projectile, Z_target, A_target) =>
        write_file (input_path_of runs run_dir_name) run_dir_name
          (write_input projectile Z_target A_target l s m (tuples_of nucl_info)) w
    | Raise e => (Raise e, w)
    end.
Proof.
  unfold make_input, lookup_target.
  rewrite bind_lift.
  destruct (getitem (map col_Target reactions) process) as [target|e];
    [|reflexivity].
  rewrite bind_lift. simpl.
  destruct (getitem (map col_Projectile reactions) process) as [projectile|e];
    [|reflexivity].
  rewrite bind_lift. simpl.
  destruct (iloc0 _) as [row|e]; [|reflexivity].
  rewrite bind_lift. simpl.
  destruct (int_cell (col_Z row)) as [zt|e]; [|reflexivity].
  rewrite bind_lift. simpl.
  destruct (int_cell (col_A row)) as [at_|e]; reflexivity.
Qed.

Lemma lookup_target_Ok nucl_info reactions process rx row rest Z_target A_target :
  0 <= process ->
  reactions !! Z.to_nat process = Some rx ->
  List.filter (fun r => cell_eq_str (col_Ydin r) (col_Target rx)) nucl_info
    = row :: rest ->
  int_cell (col_Z row) = Ok Z_target ->
  int_cell (col_A row) = Ok A_target ->
  lookup_target nucl_info reactions process
  = Ok (col_Projectile rx, Z_target, A_target).
Proof.
  intros Hk Hrx Hrow HZ HA. unfold lookup_target.
  rewrite (getitem_map_Ok col_Target _ _ _ Hk Hrx).
  rewrite (getitem_map_Ok col_Projectile _ _ _ Hk Hrx).
  simpl. rewrite Hrow. simpl. rewrite HZ. simpl. rewrite HA. reflexivity.
Qed.


Lemma filter_none {A} (f : A -> bool) (l : list A) :
  (forall x, In x l -> f x = false) -> List.filter f l = [].
Proof.
  induction l as [|x l IH]; intros H; [reflexivity|].
  simpl. rewrite (H x (or_introl eq_refl)).
  apply IH. intros y Hy. apply H. now right.
Qed.

(** C5.  When the target symbol of the selected reaction matches no row of
    the Ydin column, [make_input] raises the empty-selection error
    ([IndexError] of [iloc[0]]) and leaves the world as it was: no file is
    created or changed. *)
Theorem make_input_unknown_target_fails
    nucl_info reactions process l s m runs run_dir_name w rx :
  0 <= process ->
  reactions !! Z.to_nat process = Some rx ->
  (forall r, In r nucl_info -> cell_eq_str (col_Ydin r) (col_Target rx) = false) ->
  make_input nucl_info reactions process l s m runs run_dir_name w
  = (Raise IndexError, w).
Proof.
  intros Hk Hrx Hnone.
  rewrite make_input_stages. unfold lookup_target.
  rewrite (getitem_map_Ok col_Target _ _ _ Hk Hrx).
  rewrite (getitem_map_Ok col_Projectile _ _ _ Hk Hrx).
  simpl. rewrite (filter_none _ _ Hnone). reflexivity.
Qed.

Lemma int_cell_error (c : cell) (e : exn) :
  int_cell c = Raise e -> e = ValueError \/ e = OverflowError.
Proof.
  destruct c as [z|[sg|sg| |sg m0 e0]|t]; simpl; try discriminate;
    try (intros [= <-]; auto).
  destruct (int_of_str t); [discriminate | intros [= <-]; auto].
Qed.

(** C9.  When the first row matching the target has a Z or an A that
    [int()] rejects, [make_input] raises that error before the [try] block:
    the world is unchanged, no file is opened.  A row of the table that
    does not convert is, by contrast, only left out of [df_me]. *)
Theorem make_input_target_not_integer_fails
    nucl_info reactions process l s m runs run_dir_name w rx row rest :
  0 <= process ->
  reactions !! Z.to_nat process = Some rx ->
  List.filter (fun r => cell_eq_str (col_Ydin r) (col_Target rx)) nucl_info
    = row :: rest ->
  (exists e, int_cell (col_Z row) = Raise e)
  \/ (exists e, int_cell (col_A row) = Raise e) ->
  (exists e,
      make_input nucl_info reactions process l s m runs run_dir_name w
      = (Raise e, w)
      /\ (e = ValueError \/ e = OverflowError))
  /\ (forall r, row_numeric r = false -> ~ In r (map base (df_me_of nucl_info))).
Proof.
  intros Hk Hrx Hrow Hbad. split.
  - rewrite make_input_stages. unfold lookup_target.
    rewrite (getitem_map_Ok col_Target _ _ _ Hk Hrx).
    rewrite (getitem_map_Ok col_Projectile _ _ _ Hk Hrx).
    simpl. rewrite Hrow. simpl.
    destruct (int_cell (col_Z row)) as [z|e] eqn:HZ.
    + destruct Hbad as [[e He]|[e He]]; [discriminate|].
      simpl. rewrite He. simpl.
      exists e. split; [reflexivity | exact (int_cell_error _ _ He)].
    + simpl. exists e. split; [reflexivity | exact (int_cell_error _ _ HZ)].
  - intros r Hr Hin. rewrite df_me_rows in Hin.
    apply filter_In in Hin as [_ Hin]. congruence.
Qed.


(** *** Columns that are never read *)

Lemma agree_columns (t1 t2 : list nuclide) :
  Forall2 Spec.agree t1 t2 ->
  map col_Z t1 = map col_Z t2
  /\ map col_A t1 = map col_A t2
  /\ map col_MEJYFL t1 = map col_MEJYFL t2.
Proof.
  induction 1 as [|r1 r2 t1 t2 (_ & HZ & HA & HM) _ (IHZ & IHA & IHM)];
    [auto|].
  simpl. rewrite HZ, HA, HM, IHZ, IHA, IHM. auto.
Qed.

Lemma agree_matching (t1 t2 : list nuclide) (target : string) :
  Forall2 Spec.agree t1 t2 ->
  Forall2 Spec.agree
    (List.filter (fun r => cell_eq_str (col_Ydin r) target) t1)
    (List.filter (fun r => cell_eq_str (col_Ydin r) target) t2).
Proof.
  induction 1 as [|r1 r2 t1 t2 Hr _ IH]; [constructor|].
  simpl. destruct Hr as (HY & HZ & HA & HM). rewrite HY.
  destruct (cell_eq_str (col_Ydin r2) target); [constructor|]; auto.
  repeat split; assumption.
Qed.

Lemma lookup_target_agree (t1 t2 : list nuclide) reactions process :
  Forall2 Spec.agree t1 t2 ->
  lookup_target t1 reactions process = lookup_target t2 reactions process.
Proof.
  intros Hag. unfold lookup_target.
  destruct (getitem (map col_Target reactions) process) as [target|e];
    [simpl|reflexivity].
  destruct (getitem (map col_Projectile reactions) process) as [projectile|e];
    [simpl|reflexivity].
  destruct (agree_matching _ _ target Hag) as [|r1 r2 m1 m2 Hr _];
    [reflexivity|].
  destruct Hr as (_ & HZ & HA & _). simpl. now rewrite HZ, HA.
Qed.

Lemma tuples_assign_agree (t1 t2 : list nuclide) (zs as_ ms : list num) :
  Forall2 Spec.agree t1 t2 ->
  map tuple_of (dropna (assign t1 zs as_ ms))
  = map tuple_of (dropna (assign t2 zs as_ ms)).
Proof.
  intros Hag. revert zs as_ ms.
  induction Hag as [|r1 r2 t1 t2 _ _ IH]; intros zs as_ ms; [reflexivity|].
  destruct zs as [|z zs], as_ as [|a as_], ms as [|me ms]; try reflexivity.
  simpl. unfold any_na. simpl.
  destruct (negb (isna z || isna a || isna me)); simpl; now rewrite IH.
Qed.

Lemma tuples_of_agree (t1 t2 : list nuclide) :
  Forall2 Spec.agree t1 t2 -> tuples_of t1 = tuples_of t2.
Proof.
  intros Hag. unfold tuples_of, df_me_of.
  destruct (agree_columns _ _ Hag) as (-> & -> & ->).
  now apply tuples_assign_agree.
Qed.

(** C10.  Two nuclide tables whose rows agree on Ydin, Z, A and MEJYFL,
    whatever their N and MEAME20 columns hold, make [make_input] return the
    same result and leave the same world, hence the same file, for the same
    remaining arguments. *)
Theorem make_input_ignores_N_and_MEAME20
    (t1 t2 : list nuclide) reactions process l s m runs run_dir_name w :
  Forall2 Spec.agree t1 t2 ->
  make_input t1 reactions process l s m runs run_dir_name w
  = make_input t2 reactions process l s m runs run_dir_name w.
Proof.
  intros Hag.
  rewrite !make_input_stages.
  now rewrite (lookup_target_agree _ _ _ _ Hag), (tuples_of_agree _ _ Hag).
Qed.

(** *** Running twice *)

(** C6.  When [make_input] has ended normally, a second call with the
    same arguments ends normally too: it finds the file, prints the
    warning, takes the overwrite branch and writes the same bytes, so that
    the file system is the one the first call left. *)
Theorem make_input_twice_same_file
    nucl_info reactions process l s m runs run_dir_name w w1 :
  make_input nucl_info reactions process l s m runs run_dir_name w = (Ok tt, w1) ->
  exists c,
    file_at w1 (input_path_of runs run_dir_name) = Some c
    /\ make_input nucl_info reactions process l s m runs run_dir_name w1
       = (Ok tt, say (say w1 (msg_created run_dir_name)) msg_overwriting)
    /\ file_at (say (say w1 (msg_created run_dir_name)) msg_overwriting)
         (input_path_of runs run_dir_name) = Some c.
Proof.
  rewrite !make_input_stages.
  destruct (lookup_target nucl_info reactions process)
    as [[[projectile Z_target] A_target]|e]; [|discriminate].
  intros H1.
  destruct (write_file_Ok_inv _ _ _ _ _ H1) as (c & Hb & Hfs & Hnode).
  exists c. split; [exact (file_at_insert _ _ _ _ _ Hfs)|]. split.
  - rewrite (write_file_overwrite _ _ _ c c w1 Hnode Hb).
    replace (<[input_path_of runs run_dir_name := File true c]> (fs w1))
      with (fs w1) by (rewrite Hfs, insert_insert_eq; reflexivity).
    reflexivity.
  - unfold file_at. simpl. fold (file_at w1 (input_path_of runs run_dir_name)).
    exact (file_at_insert _ _ _ _ _ Hfs).
Qed.

(** *** The entry point *)

Lemma main_at_lookup process a w wb :
  books w !! data a = Some wb ->
  main_at process a w
  = match getitem (map col_Target (Sheet2 wb)) process,
          getitem (map col_Projectile (Sheet2 wb)) process with
    | Ok target, Ok projectile =>
        let w0 :=
          say (say (say (say w (Text target)) (Text projectile))
                 (TextReactions (nl ++ "Listed processes in Excel: " ++ nl)
                    (Sheet2 wb)))
            (TextNuclides
               (nl ++ "And relevant nuclear information available: " ++ nl)
               (Sheet1 wb)) in
        match make_dir projectile target (ldmodel a) (strength a) (massmodel a)
                (runs a) w0 with
        | (Ok run_dir, w1) =>
            make_input (Sheet1 wb) (Sheet2 wb) process
              (ldmodel a) (strength a) (massmodel a) (runs a) run_dir w1
        | (Raise e, w1) => (Raise e, w1)
        end
    | Raise e, _ => (Raise e, w)
    | Ok _, Raise e => (Raise e, w)
    end.
Proof.
  intros Hwb. unfold main_at.
  unfold mbind at 1, SE_bind at 1, parse_data. rewrite Hwb.
  rewrite bind_lift.
  destruct (getitem (map col_Target (Sheet2 wb)) process) as [target|e];
    [|reflexivity].
  rewrite bind_lift.
  destruct (getitem (map col_Projectile (Sheet2 wb)) process) as [projectile|e];
    [|reflexivity].
  rewrite !bind_print. reflexivity.
Qed.

(** The write stage runs under the name that [make_dir] returned, whatever
    became of the directory. *)
Lemma main_continues_after_make_dir process a w wb rx :
  books w !! data a = Some wb ->
  0 <= process ->
  Sheet2 wb !! Z.to_nat process = Some rx ->
  exists w0 w1,
    make_dir (col_Projectile rx) (col_Target rx)
      (ldmodel a) (strength a) (massmodel a) (runs a) w0
    = (Ok (directory_name_of (strftime_dmy (now w0))
             (col_Projectile rx) (col_Target rx)
             (ldmodel a) (strength a) (massmodel a)), w1)
    /\ main_at process a w
       = make_input (Sheet1 wb) (Sheet2 wb) process
           (ldmodel a) (strength a) (massmodel a) (runs a)
           (directory_name_of (strftime_dmy (now w0))
              (col_Projectile rx) (col_Target rx)
              (ldmodel a) (strength a) (massmodel a)) w1.
Proof.
  intros Hwb Hk Hrx.
  rewrite (main_at_lookup _ _ _ _ Hwb).
  rewrite (getitem_map_Ok col_Target _ _ _ Hk Hrx).
  rewrite (getitem_map_Ok col_Projectile _ _ _ Hk Hrx).
  cbv zeta.
  match goal with
  | |- context [make_dir ?pr ?tg ?l ?s ?m ?r ?w0] =>
      destruct (make_dir_result pr tg l s m r w0) as (w1 & report & Hrun & _);
      exists w0, w1
  end.
  rewrite Hrun. split; reflexivity.
Qed.

(** C4, amended.  When the reaction index is not a row of the reaction
    table, the run fails with the out-of-range error ([KeyError]) at the
    lookup in [main], which precedes [make_dir]: the world is unchanged,
    so no run directory is created and no input file is written.
    [make_input] called with such an index fails in the same way before it
    touches the file system. *)
Theorem main_index_out_of_range_changes_nothing process a w wb :
  books w !! data a = Some wb ->
  ~ (0 <= process < Z.of_nat (length (Sheet2 wb))) ->
  main_at process a w = (Raise KeyError, w)
  /\ forall l s m runs run_dir_name w',
       make_input (Sheet1 wb) (Sheet2 wb) process l s m runs run_dir_name w'
       = (Raise KeyError, w').
Proof.
  intros Hwb Hk.
  assert (Hget : getitem (map col_Target (Sheet2 wb)) process = Raise KeyError)
    by (apply getitem_out_of_range; now rewrite length_map).
  split.
  - now rewrite (main_at_lookup _ _ _ _ Hwb), Hget.
  - intros. rewrite make_input_stages. unfold lookup_target.
    now rewrite Hget.
Qed.

End Properties.

(** * The scenarios of the specification *)

(** C8.  Scenario A: with the single nuclide 56Ni (Z 28, A 56, mass excesses
    -53.9 and -54.0), the single reaction p + 56Ni, the parameters 5, 8, 2
    and the date 01-01-25, [make_dir] returns [Run-010125_p56Ni-582], and
    the file that [make_input] then writes under that name has the lines
    [element 28], [mass 56] and [massexcess 28 56 -53.900].  The outcome
    does not depend on how text would be parsed. *)
Theorem scenario_A_directory_and_file (lib : Library) :
  exists w1 w2 content,
    make_dir "p" "56Ni" 5 8 2 Sample.runs_dir Sample.scenario_A
    = (Ok "Run-010125_p56Ni-582", w1)
    /\ make_input [Sample.Ni56] [Sample.p_Ni56] 0 5 8 2
         Sample.runs_dir "Run-010125_p56Ni-582" w1 = (Ok tt, w2)
    /\ file_at w2 (input_path_of Sample.runs_dir "Run-010125_p56Ni-582")
       = Some content
    /\ In "element 28" (lines content)
    /\ In "mass 56" (lines content)
    /\ In "massexcess 28 56 -53.900" (lines content).
Proof.
  exists (snd (make_dir "p" "56Ni" 5 8 2 Sample.runs_dir Sample.scenario_A)).
  exists (snd (make_input [Sample.Ni56] [Sample.p_Ni56] 0 5 8 2
                 Sample.runs_dir "Run-010125_p56Ni-582"
                 (snd (make_dir "p" "56Ni" 5 8 2 Sample.runs_dir
                         Sample.scenario_A)))).
  exists (text (Spec.fixed_lines "p" 28 56 5 8 2
                ++ ["massexcess 28 56 -53.900" ++ nl])).
  split; [vm_compute; reflexivity|].
  split; [vm_compute; reflexivity|].
  split; [vm_compute; reflexivity|].
  repeat split; vm_compute; one_of_the_lines.
Qed.

(** An infinite proton number is numeric and is not dropped.  The table
    holds 56Ni, a row whose Z is infinite, and 60Zn: the write stops at the
    second row with [OverflowError], and the file is left with the fixed
    lines and the single line of 56Ni. *)
Example make_input_infinite_Z_stops_the_write (lib : Library) :
  List.filter row_numeric [Sample.Ni56; Sample.X_infinite_Z; Sample.Zn60]
  = [Sample.Ni56; Sample.X_infinite_Z; Sample.Zn60]
  /\ fst (make_input [Sample.Ni56; Sample.X_infinite_Z; Sample.Zn60]
            [Sample.p_Ni56] 0 5 8 2 Sample.runs_dir Sample.run_A
            (Sample.with_run_dir Sample.scenario_A))
     = Raise OverflowError
  /\ file_at
       (snd (make_input [Sample.Ni56; Sample.X_infinite_Z; Sample.Zn60]
               [Sample.p_Ni56] 0 5 8 2 Sample.runs_dir Sample.run_A
               (Sample.with_run_dir Sample.scenario_A)))
       (input_path_of Sample.runs_dir Sample.run_A)
     = Some (text (Spec.fixed_lines "p" 28 56 5 8 2
                   ++ ["massexcess 28 56 -53.900" ++ nl])).
Proof. repeat split; vm_compute; reflexivity. Qed.

(** C3 as worded, refuted: on 01-01-25, for p on 56Ni with 5, 8, 2, the name
    is not [Run-010125-p56Ni-582]. *)
Lemma make_dir_name_has_no_hyphen_after_date :
  fst (make_dir "p" "56Ni" 5 8 2 Sample.runs_dir Sample.scenario_A)
  <> Ok (Spec.directory_name_hyphen Sample.new_year_2025 "p" "56Ni" 5 8 2).
Proof. vm_compute. discriminate. Qed.

(** C4 as worded, refuted: with index 5 and three reactions the run stops
    with [KeyError] and the disk, empty before, is still empty: no directory
    was created before the failing lookup. *)
Lemma main_index_5_of_3_creates_no_directory :
  fst (main_at (lib := Sample.plain) 5 Sample.default_args Sample.scenario_C)
  = Raise KeyError
  /\ fs (snd (main_at (lib := Sample.plain) 5 Sample.default_args
                Sample.scenario_C)) = ∅.
Proof. split; vm_compute; reflexivity. Qed.


(** Scenario B: the row of 57Cu has the text N/A for its mass excess; it is
    left out and the run ends normally. *)
Example scenario_B_row_without_mass_excess :
  fst (make_input (lib := Sample.plain) Sample.three_nuclides
         Sample.three_reactions 0 5 8 2 Sample.runs_dir Sample.run_A
         (Sample.with_run_dir Sample.scenario_C))
  = Ok tt
  /\ file_at
       (snd (make_input (lib := Sample.plain) Sample.three_nuclides
               Sample.three_reactions 0 5 8 2 Sample.runs_dir Sample.run_A
               (Sample.with_run_dir Sample.scenario_C)))
       (input_path_of Sample.runs_dir Sample.run_A)
     = Some (text (Spec.fixed_lines "p" 28 56 5 8 2
                   ++ ["massexcess 28 56 -53.900" ++ nl;
                       "massexcess 30 60 -54.173" ++ nl])).
Proof. split; vm_compute; reflexivity. Qed.

(** The three ways in which [mkdir] can fail, each reported and survived. *)
Example make_dir_reports_and_returns :
  make_dir_outcome (Sample.with_run_dir Sample.scenario_A)
  = (Ok Sample.run_A, Some (msg_dir_exists Sample.run_A),
     fs (Sample.with_run_dir Sample.scenario_A))
  /\ make_dir_outcome (Sample.read_only_runs Sample.scenario_A)
     = (Ok Sample.run_A, Some (msg_dir_denied Sample.run_A),
        fs (Sample.read_only_runs Sample.scenario_A))
  /\ make_dir_outcome (Sample.runs_is_file Sample.scenario_A)
     = (Ok Sample.run_A, Some (msg_dir_error NotADirectoryError),
        fs (Sample.runs_is_file Sample.scenario_A)).
Proof. repeat split; vm_compute; reflexivity. Qed.

(** After a permission failure the run goes on to the write stage and
    fails there, the run directory being absent. *)
Example main_after_permission_denied :
  fst (main (lib := Sample.plain) Sample.default_args
         (Sample.read_only_runs Sample.scenario_A))
  = Raise FileNotFoundError.
Proof. vm_compute. reflexivity. Qed.

(** With an empty reaction sheet the index of [main] itself is out of
    range. *)
Example main_without_reactions :
  main (lib := Sample.plain) Sample.default_args Sample.no_reactions
  = (Raise KeyError, Sample.no_reactions).
Proof. vm_compute. reflexivity. Qed.

Example str_int_samples :
  str_int 0 = "0" /\ str_int 28 = "28" /\ str_int (-5) = "-5"
  /\ format_02d 1 = "01" /\ format_02d 31 = "31" /\ format_02d 0 = "00".
Proof. repeat split; reflexivity. Qed.

Example format_3f_samples :
  format_3f (float_of_ratio (-539) 10) = "-53.900"
  /\ format_3f (float_of_ratio 1 2000) = "0.001"
  /\ format_3f (float_of_ratio 1 16) = "0.062"
  /\ format_3f (float_of_ratio 3 16) = "0.188"
  /\ format_3f (float_of_ratio (-1) 10000) = "-0.000"
  /\ format_3f (float_of_int 12345678) = "12345678.000"
  /\ format_3f (float_of_ratio 2675 1000) = "2.675"
  /\ format_3f (float_of_ratio 10005 10000) = "1.000"
  /\ format_3f (S754_infinity false) = "inf".
Proof. repeat split; vm_compute; reflexivity. Qed.

(** * The hypotheses are met *)



(** C5 with the reaction p + 57Cu and a table that has no 57Cu. *)
Lemma make_input_unknown_target_fails_witness :
  0 <= 1
  /\ Sample.three_reactions !! Z.to_nat 1
     = Some {| col_Target := "57Cu"; col_Projectile := "p";
               col_Ejectile := "g"; col_Compound := "58Zn" |}
  /\ (forall r, In r [Sample.Ni56; Sample.Zn60] ->
                cell_eq_str (col_Ydin r) "57Cu" = false)
  /\ make_input (lib := Sample.plain) [Sample.Ni56; Sample.Zn60]
       Sample.three_reactions 1 5 8 2 Sample.runs_dir Sample.run_A
       (Sample.with_run_dir Sample.scenario_C)
     = (Raise IndexError, Sample.with_run_dir Sample.scenario_C).
Proof.
  assert (H1 : 0 <= 1) by lia.
  assert (H2 : Sample.three_reactions !! Z.to_nat 1
               = Some {| col_Target := "57Cu"; col_Projectile := "p";
                         col_Ejectile := "g"; col_Compound := "58Zn" |})
    by reflexivity.
  assert (H3 : forall r, In r [Sample.Ni56; Sample.Zn60] ->
                         cell_eq_str (col_Ydin r) "57Cu" = false)
    by (intros r [<-|[<-|[]]]; reflexivity).
  repeat (split; [assumption|]).
  exact (make_input_unknown_target_fails (lib := Sample.plain)
           [Sample.Ni56; Sample.Zn60] Sample.three_reactions 1 5 8 2
           Sample.runs_dir Sample.run_A (Sample.with_run_dir Sample.scenario_C)
           _ H1 H2 H3).
Defined.

(** C9 with a target row whose proton number is missing. *)
Lemma make_input_target_not_integer_fails_witness :
  0 <= 0
  /\ [Sample.p_Ni56] !! Z.to_nat 0 = Some Sample.p_Ni56
  /\ List.filter (fun r => cell_eq_str (col_Ydin r) (col_Target Sample.p_Ni56))
       [Sample.Ni56_no_Z; Sample.Zn60] = [Sample.Ni56_no_Z]
  /\ ((exists e, int_cell (lib := Sample.plain) (col_Z Sample.Ni56_no_Z) = Raise e)
      \/ (exists e, int_cell (lib := Sample.plain) (col_A Sample.Ni56_no_Z)
                    = Raise e))
  /\ (exists e,
         make_input (lib := Sample.plain) [Sample.Ni56_no_Z; Sample.Zn60]
           [Sample.p_Ni56] 0 5 8 2 Sample.runs_dir Sample.run_A
           (Sample.with_run_dir Sample.scenario_A)
         = (Raise e, Sample.with_run_dir Sample.scenario_A)
         /\ (e = ValueError \/ e = OverflowError))
  /\ (forall r, row_numeric (lib := Sample.plain) r = false ->
                ~ In r (map base (df_me_of (lib := Sample.plain)
                                    [Sample.Ni56_no_Z; Sample.Zn60]))).
Proof.
  assert (H1 : 0 <= 0) by lia.
  assert (H2 : [Sample.p_Ni56] !! Z.to_nat 0 = Some Sample.p_Ni56) by reflexivity.
  assert (H3 : List.filter
                 (fun r => cell_eq_str (col_Ydin r) (col_Target Sample.p_Ni56))
                 [Sample.Ni56_no_Z; Sample.Zn60] = [Sample.Ni56_no_Z])
    by (vm_compute; reflexivity).
  assert (H4 : (exists e, int_cell (lib := Sample.plain)
                            (col_Z Sample.Ni56_no_Z) = Raise e)
               \/ (exists e, int_cell (lib := Sample.plain)
                               (col_A Sample.Ni56_no_Z) = Raise e))
    by (left; exists ValueError; reflexivity).
  repeat (split; [assumption|]).
  exact (make_input_target_not_integer_fails (lib := Sample.plain)
           [Sample.Ni56_no_Z; Sample.Zn60] [Sample.p_Ni56] 0 5 8 2
           Sample.runs_dir Sample.run_A (Sample.with_run_dir Sample.scenario_A)
           Sample.p_Ni56 Sample.Ni56_no_Z [] H1 H2 H3 H4).
Defined.

(** C10 with two tables that differ in the N and MEAME20 of 56Ni. *)
Lemma make_input_ignores_N_and_MEAME20_witness :
  Forall2 Spec.agree [Sample.Ni56; Sample.Zn60]
    [Sample.Ni56_other_columns; Sample.Zn60]
  /\ col_N Sample.Ni56 <> col_N Sample.Ni56_other_columns
  /\ col_MEAME20 Sample.Ni56 <> col_MEAME20 Sample.Ni56_other_columns
  /\ make_input (lib := Sample.plain) [Sample.Ni56; Sample.Zn60]
       [Sample.p_Ni56] 0 5 8 2 Sample.runs_dir Sample.run_A
       (Sample.with_run_dir Sample.scenario_A)
     = make_input (lib := Sample.plain) [Sample.Ni56_other_columns; Sample.Zn60]
         [Sample.p_Ni56] 0 5 8 2 Sample.runs_dir Sample.run_A
         (Sample.with_run_dir Sample.scenario_A).
Proof.
  assert (H1 : Forall2 Spec.agree [Sample.Ni56; Sample.Zn60]
                 [Sample.Ni56_other_columns; Sample.Zn60])
    by (repeat constructor).
  split; [exact H1|].
  split; [vm_compute; discriminate|].
  split; [vm_compute; discriminate|].
  exact (make_input_ignores_N_and_MEAME20 (lib := Sample.plain) _ _
           [Sample.p_Ni56] 0 5 8 2 Sample.runs_dir Sample.run_A
           (Sample.with_run_dir Sample.scenario_A) H1).
Defined.

(** C6 in scenario A, the first call creating the file. *)
Lemma make_input_twice_same_file_witness :
  make_input (lib := Sample.plain) [Sample.Ni56] [Sample.p_Ni56] 0 5 8 2
    Sample.runs_dir Sample.run_A (Sample.with_run_dir Sample.scenario_A)
  = (Ok tt,
     snd (make_input (lib := Sample.plain) [Sample.Ni56] [Sample.p_Ni56] 0 5 8 2
            Sample.runs_dir Sample.run_A (Sample.with_run_dir Sample.scenario_A)))
  /\ exists c,
      file_at
        (snd (make_input (lib := Sample.plain) [Sample.Ni56] [Sample.p_Ni56]
                0 5 8 2 Sample.runs_dir Sample.run_A
                (Sample.with_run_dir Sample.scenario_A)))
        (input_path_of Sample.runs_dir Sample.run_A) = Some c
      /\ make_input (lib := Sample.plain) [Sample.Ni56] [Sample.p_Ni56] 0 5 8 2
           Sample.runs_dir Sample.run_A
           (snd (make_input (lib := Sample.plain) [Sample.Ni56] [Sample.p_Ni56]
                   0 5 8 2 Sample.runs_dir Sample.run_A
                   (Sample.with_run_dir Sample.scenario_A)))
         = (Ok tt,
            say (say (snd (make_input (lib := Sample.plain) [Sample.Ni56]
                             [Sample.p_Ni56] 0 5 8 2 Sample.runs_dir Sample.run_A
                             (Sample.with_run_dir Sample.scenario_A)))
                   (msg_created Sample.run_A)) msg_overwriting)
      /\ file_at
           (say (say (snd (make_input (lib := Sample.plain) [Sample.Ni56]
                             [Sample.p_Ni56] 0 5 8 2 Sample.runs_dir Sample.run_A
                             (Sample.with_run_dir Sample.scenario_A)))
                   (msg_created Sample.run_A)) msg_overwriting)
           (input_path_of Sample.runs_dir Sample.run_A) = Some c.
Proof.
  assert (H1 : make_input (lib := Sample.plain) [Sample.Ni56] [Sample.p_Ni56]
                 0 5 8 2 Sample.runs_dir Sample.run_A
                 (Sample.with_run_dir Sample.scenario_A)
               = (Ok tt,
                  snd (make_input (lib := Sample.plain) [Sample.Ni56]
                         [Sample.p_Ni56] 0 5 8 2 Sample.runs_dir Sample.run_A
                         (Sample.with_run_dir Sample.scenario_A))))
    by (vm_compute; reflexivity).
  split; [exact H1|].
  exact (make_input_twice_same_file (lib := Sample.plain) _ _ _ _ _ _ _ _ _ _ H1).
Defined.

(** C3, amended, on 01-01-25. *)
Lemma make_dir_name_format_witness :
  Spec.valid_date (now Sample.scenario_A)
  /\ exists w',
      make_dir "p" "56Ni" 5 8 2 Sample.runs_dir Sample.scenario_A
      = (Ok (Spec.directory_name_underscore (now Sample.scenario_A)
               "p" "56Ni" 5 8 2), w').
Proof.
  assert (H1 : Spec.valid_date (now Sample.scenario_A))
    by (unfold Spec.valid_date; simpl; lia).
  split; [exact H1|].
  exact (make_dir_name_format "p" "56Ni" 5 8 2 Sample.runs_dir
           Sample.scenario_A H1).
Defined.

(** C4, amended, with index 5 and the three reactions of scenario C. *)
Lemma main_index_out_of_range_changes_nothing_witness :
  books Sample.scenario_C !! data Sample.default_args
  = Some {| Sheet1 := Sample.three_nuclides; Sheet2 := Sample.three_reactions |}
  /\ ~ (0 <= 5 < Z.of_nat (length Sample.three_reactions))
  /\ main_at (lib := Sample.plain) 5 Sample.default_args Sample.scenario_C
     = (Raise KeyError, Sample.scenario_C)
  /\ forall l s m runs run_dir_name w',
       make_input (lib := Sample.plain) Sample.three_nuclides
         Sample.three_reactions 5 l s m runs run_dir_name w'
       = (Raise KeyError, w').
Proof.
  assert (H1 : books Sample.scenario_C !! data Sample.default_args
               = Some {| Sheet1 := Sample.three_nuclides;
                         Sheet2 := Sample.three_reactions |})
    by (vm_compute; reflexivity).
  assert (H2 : ~ (0 <= 5 < Z.of_nat (length Sample.three_reactions)))
    by (simpl; lia).
  split; [exact H1|]. split; [exact H2|].
  exact (main_index_out_of_range_changes_nothing (lib := Sample.plain)
           5 Sample.default_args Sample.scenario_C _ H1 H2).
Defined.
(** * Further properties *)

(** ** Creating the directories *)

(** * Further properties *)

(** ** Creating the run directory *)




Lemma parent_snoc (q : path) (x : string) : parent (q ++ [x])%list = q.
Proof. apply removelast_last. Qed.

Lemma snoc_not_root (q : path) (x : string) : (q ++ [x])%list <> [].
Proof. destruct q; discriminate. Qed.




Lemma node_at_nonroot (w : world) (p : path) :
  p <> [] -> node_at w p = fs w !! p.
Proof. destruct p; [congruence | reflexivity]. Qed.








(** [mkdir(exist_ok=False)] on a path that exists, directory or file,
    raises [FileExistsError]. *)
Lemma Path_mkdir_exists (d : nat) (p : path) (parents : bool) (w : world) (n : node) :
  node_at w p = Some n ->
  Path_mkdir d p parents false w = (Raise FileExistsError, w).
Proof.
  intros Hp. destruct d; cbn [Path_mkdir]; unfold try_except, os_mkdir;
    rewrite Hp; unfold mbind, SE_bind, is_dir; rewrite Hp; reflexivity.
Qed.

(** what [make_dir] does with the outcome of [mkdir] *)
Lemma make_dir_after_mkdir projectile target l s m runs w r w1 :
  let name := directory_name_of (strftime_dmy (now w)) projectile target l s m in
  let w0 := say (say w (msg_creating name)) (msg_to_path runs) in
  Path_mkdir (length (runs ++ [name])%list) (runs ++ [name])%list true false w0 = (r, w1) ->
  make_dir projectile target l s m runs w
  = (Ok name,
     say w1 (match r with
             | Ok _ => msg_dir_created name
             | Raise e => msg_dir_failed name e
             end)).
Proof.
  intros name w0 Hmk. unfold make_dir. fold name.
  rewrite !bind_print. fold w0.
  unfold mbind at 1, SE_bind at 1, try_except.
  unfold mbind at 1, SE_bind at 1.
  rewrite Hmk. destruct r as [[]|e]; [reflexivity|].
  destruct e; reflexivity.
Qed.



(** X2.  When the name of the run directory is already taken, by a
    directory or by a regular file, [make_dir] changes nothing on disk,
    prints that the directory already exists and returns the name. *)
Theorem make_dir_keeps_existing_entry projectile target l s m runs w n :
  node_at w
    (runs ++ [directory_name_of (strftime_dmy (now w)) projectile target l s m])%list
  = Some n ->
  make_dir projectile target l s m runs w
  = (Ok (directory_name_of (strftime_dmy (now w)) projectile target l s m),
     say (say (say w (msg_creating
                        (directory_name_of (strftime_dmy (now w))
                           projectile target l s m)))
            (msg_to_path runs))
       (msg_dir_exists
          (directory_name_of (strftime_dmy (now w)) projectile target l s m))).
Proof.
  intros Hn.
  set (name := directory_name_of (strftime_dmy (now w)) projectile target l s m) in *.
  apply (make_dir_after_mkdir projectile target l s m runs w
           (Raise FileExistsError)).
  apply (Path_mkdir_exists _ _ _ _ n). now rewrite !node_at_say.
Qed.


(** ** What [mkdir] leaves alone *)

Lemma only_adds_dirs_refl (w : world) : only_adds_dirs w w.
Proof. repeat split; auto. Qed.

Lemma only_adds_dirs_trans (w1 w2 w3 : world) :
  only_adds_dirs w1 w2 -> only_adds_dirs w2 w3 -> only_adds_dirs w1 w3.
Proof.
  intros (H1 & H2 & H3 & H4) (K1 & K2 & K3 & K4).
  split; [|split; [|split; congruence]].
  - auto.
  - intros q n Hq. destruct (K2 q n Hq) as [Hq2|[-> Hq2]]; [auto|].
    right. split; [reflexivity|].
    assert (Hne : q <> []) by (intros ->; discriminate Hq2).
    rewrite node_at_nonroot in Hq2 |- * by exact Hne.
    destruct (fs w1 !! q) eqn:E; [|reflexivity].
    apply H1 in E. congruence.
Qed.

Lemma only_adds_dirs_say (w : world) (o : output) : only_adds_dirs w (say w o).
Proof. repeat split; auto. Qed.

Lemma os_mkdir_only_adds p w r w' :
  os_mkdir p w = (r, w') -> only_adds_dirs w w'.
Proof.
  unfold os_mkdir.
  destruct (node_at w p) eqn:Hp; [intros [= _ <-]; apply only_adds_dirs_refl|].
  destruct (check_parent w p); intros [= _ <-]; [|apply only_adds_dirs_refl].
  assert (Hne : p <> []) by (intros ->; discriminate Hp).
  rewrite (node_at_nonroot _ _ Hne) in Hp.
  repeat split; simpl; auto.
  - intros q n Hq. rewrite lookup_insert_ne; [exact Hq | congruence].
  - intros q n Hq. destruct (decide (p = q)) as [<-|Hpq].
    + rewrite lookup_insert_eq in Hq. injection Hq as <-.
      right. split; [reflexivity|]. now rewrite node_at_nonroot.
    + rewrite lookup_insert_ne in Hq by exact Hpq. now left.
Qed.

Lemma Path_mkdir_only_adds depth :
  forall p parents exist_ok w r w',
    Path_mkdir depth p parents exist_ok w = (r, w') -> only_adds_dirs w w'.
Proof.
  induction depth as [|k IH]; intros p parents exist_ok w r w';
    simpl; unfold try_except;
    destruct (os_mkdir p w) as [[[]|e] w1] eqn:Hos;
    apply os_mkdir_only_adds in Hos;
    try (intros [= _ <-]; exact Hos);
    destruct e;
    try (unfold mbind, SE_bind, is_dir, raise, mret, SE_ret;
         destruct (negb exist_ok || negb _);
         intros [= _ <-]; exact Hos).
  - destruct (negb parents || bool_decide (parent p = p));
      intros [= _ <-]; exact Hos.
  - destruct (negb parents || bool_decide (parent p = p));
      [intros [= _ <-]; exact Hos|].
    unfold mbind, SE_bind.
    destruct (Path_mkdir k (parent p) true true w1) as [[[]|e1] w2] eqn:H1;
      apply IH in H1.
    + intros H2. apply IH in H2.
      eauto using only_adds_dirs_trans.
    + intros [= _ <-]. eauto using only_adds_dirs_trans.
Qed.

(** X4.  Whatever the state of the disk, [make_dir] removes nothing and
    changes no entry: every file and directory that existed is still there
    with the same content, and whatever is new is a directory.  The
    workbooks and the clock are untouched. *)
Theorem make_dir_only_adds_directories projectile target l s m runs w :
  only_adds_dirs w (snd (make_dir projectile target l s m runs w)).
Proof.
  set (name := directory_name_of (strftime_dmy (now w)) projectile target l s m).
  set (w0 := say (say w (msg_creating name)) (msg_to_path runs)).
  destruct (Path_mkdir (length (runs ++ [name])%list) (runs ++ [name])%list
              true false w0) as [r w1] eqn:Hmk.
  rewrite (make_dir_after_mkdir _ _ _ _ _ _ _ _ _ Hmk). simpl.
  apply Path_mkdir_only_adds in Hmk.
  eapply only_adds_dirs_trans; [|apply only_adds_dirs_say].
  eapply only_adds_dirs_trans; [|exact Hmk].
  eapply only_adds_dirs_trans; apply only_adds_dirs_say.
Qed.

(** ** Opening the input file: what else can happen *)

Lemma input_path_snoc (runs : path) (name : string) :
  input_path_of runs name
  = ((runs ++ [name]) ++ [(name ++ "_input.txt")%string])%list.
Proof. unfold input_path_of. now rewrite <- app_assoc. Qed.

Lemma parent_input_path (runs : path) (name : string) :
  parent (input_path_of runs name) = (runs ++ [name])%list.
Proof. rewrite input_path_snoc. apply parent_snoc. Qed.

Lemma input_path_not_root (runs : path) (name : string) :
  input_path_of runs name <> [].
Proof. rewrite input_path_snoc. apply snoc_not_root. Qed.

(** the [try] block touches no path but the one it opens *)
Lemma write_file_frame p name body w :
  (forall q, q <> p ->
     fs (snd (write_file p name body w)) !! q = fs w !! q)
  /\ books (snd (write_file p name body w)) = books w
  /\ now (snd (write_file p name body w)) = now w.
Proof.
  unfold write_file, try_except. rewrite bind_print.
  unfold with_open_x, with_open_w, write_through.
  rewrite node_at_say, check_parent_say.
  destruct (body EmptyString) as [rb c].
  assert (Hdone : forall (w1 : world) (r : result unit) (m : gmap path node),
             books w1 = books w -> now w1 = now w ->
             (forall q, q <> p -> m !! q = fs w !! q) ->
             (forall q, q <> p -> fs (snd (r, set_fs w1 m)) !! q = fs w !! q)
             /\ books (snd (r, set_fs w1 m)) = books w
             /\ now (snd (r, set_fs w1 m)) = now w)
    by (intros; simpl; auto).
  assert (Hsame : forall (w1 : world) (r : result unit),
             fs w1 = fs w -> books w1 = books w -> now w1 = now w ->
             (forall q, q <> p -> fs (snd (r, w1)) !! q = fs w !! q)
             /\ books (snd (r, w1)) = books w
             /\ now (snd (r, w1)) = now w)
    by (intros w1 r H1 H2 H3; simpl; rewrite H1; auto).
  assert (Hins : forall (n : node) (q : path),
             q <> p -> <[p := n]> (fs w) !! q = fs w !! q)
    by (intros n q Hq; apply lookup_insert_ne; congruence).
  destruct (node_at w p) as [[wr|[|] old]|] eqn:Hp.
  - rewrite bind_print, !node_at_say, Hp. apply Hsame; reflexivity.
  - rewrite bind_print, !node_at_say, Hp. apply Hdone; auto.
  - rewrite bind_print, !node_at_say, Hp. apply Hsame; reflexivity.
  - destruct (check_parent w p) as [[]|e] eqn:Hpar.
    + destruct rb as [[]|e]; [apply Hdone; auto|].
      destruct e; try (apply Hdone; auto; fail).
      rewrite bind_print, node_at_say.
      assert (Hne : p <> []) by (intros ->; discriminate Hp).
      rewrite node_at_nonroot by exact Hne.
      simpl fs. rewrite lookup_insert_eq.
      apply Hdone; auto.
      intros q Hq. simpl. rewrite !lookup_insert_ne by congruence. reflexivity.
    + destruct e; try (apply Hsame; reflexivity; fail).
      rewrite bind_print, !node_at_say, Hp, !check_parent_say, Hpar.
      apply Hsame; reflexivity.
Qed.


(** A body that raises leaves what it had written in the file. *)
Lemma write_file_body_raises p name body w e c :
  openable w p = true ->
  body EmptyString = (Raise e, c) ->
  e <> FileExistsError ->
  exists w', write_file p name body w = (Raise e, w')
             /\ fs w' = <[p := File true c]> (fs w).
Proof.
  unfold openable. intros Hop Hb He.
  unfold write_file, try_except. rewrite bind_print.
  unfold with_open_x, with_open_w, write_through.
  rewrite node_at_say, check_parent_say.
  destruct (node_at w p) as [[wr|wr old]|] eqn:Hp; [discriminate| |].
  - subst wr. rewrite bind_print, !node_at_say, Hp, Hb.
    eexists. split; reflexivity.
  - destruct (check_parent w p) as [[]|e'] eqn:Hpar; [|discriminate].
    rewrite Hb. destruct e; try congruence; eexists; split; reflexivity.
Qed.

(** A path held by a directory or by a read-only file stops the overwrite
    branch: its error is not caught. *)
Lemma write_file_not_writable p name body w n e :
  node_at w p = Some n ->
  match n with
  | Dir _ => e = IsADirectoryError
  | File wr _ => wr = false /\ e = PermissionError
  end ->
  write_file p name body w
  = (Raise e, say (say w (msg_created name)) msg_overwriting).
Proof.
  intros Hp Hn.
  unfold write_file, try_except. rewrite bind_print.
  unfold with_open_x. rewrite node_at_say, Hp.
  rewrite bind_print. unfold with_open_w. rewrite !node_at_say, Hp.
  destruct n as [b|wr c]; [now subst e|].
  destruct Hn as [-> ->]. reflexivity.
Qed.

Section More.

Context {lib : Library}.

Lemma df_me_no_na (nucl_info : list nuclide) (r : me_row) :
  In r (df_me_of nucl_info) -> any_na r = false.
Proof.
  unfold df_me_of, dropna. intros [_ H]%filter_In.
  now apply negb_true_iff.
Qed.

(** X5.  Whatever the outcome, [make_input] touches no path but that of the
    input file: every other entry of the disk, the workbooks and the clock
    are as before. *)
Theorem make_input_touches_only_its_file
    nucl_info reactions process l s m runs run_dir_name w q :
  q <> input_path_of runs run_dir_name ->
  fs (snd (make_input nucl_info reactions process l s m runs run_dir_name w)) !! q
    = fs w !! q
  /\ books (snd (make_input nucl_info reactions process l s m runs run_dir_name w))
     = books w
  /\ now (snd (make_input nucl_info reactions process l s m runs run_dir_name w))
     = now w.
Proof.
  intros Hq. rewrite make_input_stages.
  destruct (lookup_target nucl_info reactions process)
    as [[[projectile Z_target] A_target]|e]; [|auto].
  destruct (write_file_frame (input_path_of runs run_dir_name) run_dir_name
              (write_input projectile Z_target A_target l s m
                 (tuples_of nucl_info)) w) as (H1 & H2 & H3).
  auto.
Qed.


Lemma massexcess_entry_infinite (r : me_row) (buf : string) :
  any_na r = false -> ~ finite_ZA r ->
  massexcess_entry (tuple_of r) buf = (Raise OverflowError, buf).
Proof.
  unfold any_na, finite_ZA, massexcess_entry, tuple_of.
  intros Hna Hfin. cbv beta iota.
  apply orb_false_elim in Hna as [Hna _].
  apply orb_false_elim in Hna as [HZ HA].
  destruct (finite (Z_num r)) eqn:FZ.
  - destruct (finite (A_num r)) eqn:FA; [tauto|].
    rewrite bind_lift, (py_int_finite _ FZ).
    rewrite bind_lift, (py_int_infinite _ FA HA). reflexivity.
  - rewrite bind_lift, (py_int_infinite _ FZ HZ). reflexivity.
Qed.

Lemma for_each_massexcess_stops (pre post : list me_row) (r : me_row)
    (buf : string) :
  Forall finite_ZA pre -> any_na r = false -> ~ finite_ZA r ->
  for_each (map tuple_of (pre ++ r :: post)) massexcess_entry buf
  = (Raise OverflowError, buf ++ text (map Spec.massexcess_line pre)).
Proof.
  intros Hpre Hna Hfin. revert buf.
  induction Hpre as [|r0 pre Hr0 _ IH]; intros buf.
  - cbn [app map for_each]. unfold mbind, SE_bind.
    rewrite (massexcess_entry_infinite r buf Hna Hfin).
    simpl. now rewrite append_nil_r.
  - cbn [app map for_each].
    rewrite (bind_Ok _ _ _ _ _ (massexcess_entry_finite r0 buf Hr0)).
    rewrite IH. simpl map. rewrite text_cons, append_assoc. reflexivity.
Qed.

(** X7.  When a surviving row has an infinite Z or A, the write stops at the
    first such row with [OverflowError], which is not caught: the file is
    left holding the sixteen fixed lines and the [massexcess] lines of the
    rows before it, and nothing for that row or the rows after it. *)
Theorem make_input_stops_at_infinite_row
    nucl_info reactions process l s m runs run_dir_name w
    rx row rest Z_target A_target before bad after :
  0 <= process ->
  reactions !! Z.to_nat process = Some rx ->
  List.filter (fun r => cell_eq_str (col_Ydin r) (col_Target rx)) nucl_info
    = row :: rest ->
  int_cell (col_Z row) = Ok Z_target ->
  int_cell (col_A row) = Ok A_target ->
  df_me_of nucl_info = (before ++ bad :: after)%list ->
  Forall finite_ZA before ->
  ~ finite_ZA bad ->
  openable w (input_path_of runs run_dir_name) = true ->
  exists w',
    make_input nucl_info reactions process l s m runs run_dir_name w
    = (Raise OverflowError, w')
    /\ file_at w' (input_path_of runs run_dir_name)
       = Some (text (Spec.fixed_lines (col_Projectile rx) Z_target A_target l s m
                       ++ map Spec.massexcess_line before)).
Proof.
  intros Hk Hrx Hrow HZ HA Hrows Hbefore Hbad Hop.
  rewrite make_input_stages,
    (lookup_target_Ok _ _ _ _ _ _ _ _ Hk Hrx Hrow HZ HA).
  assert (Hna : any_na bad = false).
  { apply (df_me_no_na nucl_info). rewrite Hrows.
    apply in_or_app. right. now left. }
  assert (Hbody : write_input (col_Projectile rx) Z_target A_target l s m
                    (tuples_of nucl_info) EmptyString
                  = (Raise OverflowError,
                     text (Spec.fixed_lines (col_Projectile rx) Z_target A_target
                             l s m ++ map Spec.massexcess_line before))).
  { unfold tuples_of. rewrite Hrows, write_input_fixed_lines.
    rewrite (for_each_massexcess_stops _ _ _ _ Hbefore Hna Hbad), text_app.
    reflexivity. }
  destruct (write_file_body_raises _ run_dir_name _ _ _ _ Hop Hbody)
    as (w' & Hrun & Hfs); [discriminate|].
  exists w'. split; [exact Hrun | exact (file_at_insert _ _ _ _ _ Hfs)].
Qed.

(** X8.  When the path of the input file is held by a directory, or by a
    file that is read-only, [make_input] prints both of its messages and
    fails with the error of the second [open] ([IsADirectoryError],
    [PermissionError]), which no [except] clause catches: the disk is
    unchanged. *)
Theorem make_input_cannot_overwrite
    nucl_info reactions process l s m runs run_dir_name w
    rx row rest Z_target A_target n e :
  0 <= process ->
  reactions !! Z.to_nat process = Some rx ->
  List.filter (fun r => cell_eq_str (col_Ydin r) (col_Target rx)) nucl_info
    = row :: rest ->
  int_cell (col_Z row) = Ok Z_target ->
  int_cell (col_A row) = Ok A_target ->
  node_at w (input_path_of runs run_dir_name) = Some n ->
  match n with
  | Dir _ => e = IsADirectoryError
  | File wr _ => wr = false /\ e = PermissionError
  end ->
  make_input nucl_info reactions process l s m runs run_dir_name w
  = (Raise e, say (say w (msg_created run_dir_name)) msg_overwriting).
Proof.
  intros Hk Hrx Hrow HZ HA Hnode Hn.
  rewrite make_input_stages,
    (lookup_target_Ok _ _ _ _ _ _ _ _ Hk Hrx Hrow HZ HA).
  now apply (write_file_not_writable _ _ _ _ n).
Qed.

End More.

(** ** Every entry stays inside a directory *)

Lemma node_at_fs_eq (w w' : world) (p : path) :
  fs w = fs w' -> node_at w p = node_at w' p.
Proof. intros H. destruct p; simpl; [reflexivity | now rewrite H]. Qed.

Lemma parent_not_self (p : path) : p <> [] -> parent p <> p.
Proof.
  intros Hne H. apply (f_equal (@length string)) in H.
  rewrite length_parent in H. destruct p; [congruence | simpl in H; lia].
Qed.

Lemma node_at_insert_ne (w : world) (p q : path) (n : node) :
  q <> p -> node_at (set_fs w (<[p := n]> (fs w))) q = node_at w q.
Proof.
  intros Hq. destruct q; [reflexivity|]. simpl.
  apply lookup_insert_ne. congruence.
Qed.

Lemma wf_fs_say (w : world) (o : output) : wf_fs w -> wf_fs (say w o).
Proof. intros H p n Hp. rewrite node_at_say. exact (H p n Hp). Qed.


(** A new entry in an existing directory, or another content for what was
    not a directory, keeps the file system well formed. *)
Lemma wf_fs_insert (w : world) (p : path) (n : node) :
  wf_fs w -> p <> [] ->
  (exists b, node_at w (parent p) = Some (Dir b)) ->
  (forall b, node_at w p <> Some (Dir b)) ->
  wf_fs (set_fs w (<[p := n]> (fs w))).
Proof.
  intros Hwf Hne [b Hpar] Hnodir q n' Hq. simpl in Hq.
  destruct (decide (p = q)) as [<-|Hpq].
  - exists b. rewrite node_at_insert_ne by (apply parent_not_self, Hne).
    exact Hpar.
  - rewrite lookup_insert_ne in Hq by exact Hpq.
    destruct (Hwf q n' Hq) as [b' Hb'].
    exists b'. rewrite node_at_insert_ne; [exact Hb'|].
    intros Heq. rewrite Heq in Hb'. exact (Hnodir b' Hb').
Qed.

Lemma check_parent_Ok (w : world) (p : path) :
  check_parent w p = Ok tt -> node_at w (parent p) = Some (Dir true).
Proof.
  unfold check_parent.
  destruct (node_at w (parent p)) as [[[|]|wr c]|]; congruence.
Qed.

Lemma os_mkdir_wf p w : wf_fs w -> wf_fs (snd (os_mkdir p w)).
Proof.
  intros Hwf. unfold os_mkdir.
  destruct (node_at w p) eqn:Hp; [exact Hwf|].
  destruct (check_parent w p) as [[]|e] eqn:Hpar; [|exact Hwf].
  simpl. apply wf_fs_insert; auto.
  - intros ->. discriminate Hp.
  - exists true. now apply check_parent_Ok.
  - intros b. congruence.
Qed.

Lemma Path_mkdir_wf depth :
  forall p parents exist_ok w,
    wf_fs w -> wf_fs (snd (Path_mkdir depth p parents exist_ok w)).
Proof.
  induction depth as [|k IH]; intros p parents exist_ok w Hwf;
    simpl; unfold try_except;
    pose proof (os_mkdir_wf p w Hwf) as Hos;
    destruct (os_mkdir p w) as [[[]|e] w1]; simpl in Hos;
    try exact Hos;
    destruct e;
    try (unfold mbind, SE_bind, is_dir, raise, mret, SE_ret;
         destruct (negb exist_ok || negb _); exact Hos).
  - destruct (negb parents || bool_decide (parent p = p)); exact Hos.
  - destruct (negb parents || bool_decide (parent p = p)); [exact Hos|].
    unfold mbind, SE_bind.
    pose proof (IH (parent p) true true w1 Hos) as H1.
    destruct (Path_mkdir k (parent p) true true w1) as [[[]|e1] w2];
      simpl in H1; [|exact H1].
    apply IH, H1.
Qed.

Lemma make_dir_wf projectile target l s m runs w :
  wf_fs w -> wf_fs (snd (make_dir projectile target l s m runs w)).
Proof.
  intros Hwf.
  set (name := directory_name_of (strftime_dmy (now w)) projectile target l s m).
  set (w0 := say (say w (msg_creating name)) (msg_to_path runs)).
  pose proof (Path_mkdir_wf (length (runs ++ [name])%list) (runs ++ [name])%list
                true false w0) as Hmk.
  destruct (Path_mkdir (length (runs ++ [name])%list) (runs ++ [name])%list
              true false w0) as [r w1] eqn:E.
  rewrite (make_dir_after_mkdir _ _ _ _ _ _ _ _ _ E). simpl.
  apply wf_fs_say, Hmk. unfold w0. now apply wf_fs_say, wf_fs_say.
Qed.

Lemma write_through_wf p wr body w :
  wf_fs w -> p <> [] ->
  (exists b, node_at w (parent p) = Some (Dir b)) ->
  (forall b, node_at w p <> Some (Dir b)) ->
  wf_fs (snd (write_through p wr body w)).
Proof.
  intros Hwf Hne Hpar Hnodir. unfold write_through.
  destruct (body EmptyString) as [r c]. simpl.
  now apply wf_fs_insert.
Qed.

Lemma with_open_w_wf p body w : wf_fs w -> wf_fs (snd (with_open_w p body w)).
Proof.
  intros Hwf. unfold with_open_w.
  destruct (node_at w p) as [[b|[|] old]|] eqn:Hp; try exact Hwf.
  - assert (Hne : p <> []) by (intros ->; discriminate Hp).
    apply write_through_wf; auto.
    + rewrite node_at_nonroot in Hp by exact Hne. exact (Hwf _ _ Hp).
    + intros b. congruence.
  - destruct (check_parent w p) as [[]|e] eqn:Hpar; [|exact Hwf].
    apply write_through_wf; auto.
    + intros ->. discriminate Hp.
    + exists true. now apply check_parent_Ok.
    + intros b. congruence.
Qed.

Lemma with_open_x_wf p body w : wf_fs w -> wf_fs (snd (with_open_x p body w)).
Proof.
  intros Hwf. unfold with_open_x.
  destruct (node_at w p) eqn:Hp; [exact Hwf|].
  destruct (check_parent w p) as [[]|e] eqn:Hpar; [|exact Hwf].
  apply write_through_wf; auto.
  - intros ->. discriminate Hp.
  - exists true. now apply check_parent_Ok.
  - intros b. congruence.
Qed.

Lemma write_file_wf p name body w :
  wf_fs w -> wf_fs (snd (write_file p name body w)).
Proof.
  intros Hwf. unfold write_file, try_except. rewrite bind_print.
  pose proof (with_open_x_wf p body _ (wf_fs_say w (msg_created name) Hwf)) as Hx.
  destruct (with_open_x p body (say w (msg_created name))) as [[[]|e] w1];
    simpl in Hx; [exact Hx|].
  destruct e; try exact Hx.
  rewrite bind_print. apply with_open_w_wf, wf_fs_say, Hx.
Qed.

Section Whole.

Context {lib : Library}.

Lemma make_input_wf nucl_info reactions process l s m runs run_dir_name w :
  wf_fs w ->
  wf_fs (snd (make_input nucl_info reactions process l s m runs run_dir_name w)).
Proof.
  intros Hwf. rewrite make_input_stages.
  destruct (lookup_target nucl_info reactions process)
    as [[[projectile Z_target] A_target]|e]; [|exact Hwf].
  now apply write_file_wf.
Qed.

(** a missing workbook stops [main] at once *)
Lemma main_at_missing_workbook process a w :
  books w !! data a = None ->
  main_at process a w = (Raise FileNotFoundError, w).
Proof.
  intros Hwb. unfold main_at.
  unfold mbind at 1, SE_bind at 1, parse_data. now rewrite Hwb.
Qed.

(** X9.  A run keeps the file system well formed: if every entry lies in
    a directory before [main], the same holds after it, whether the run
    ends normally or with an error. *)
Theorem main_keeps_entries_in_directories process a w :
  wf_fs w -> wf_fs (snd (main_at process a w)).
Proof.
  intros Hwf.
  destruct (books w !! data a) as [wb|] eqn:Hwb;
    [|now rewrite (main_at_missing_workbook _ _ _ Hwb)].
  rewrite (main_at_lookup _ _ _ _ Hwb).
  destruct (getitem (map col_Target (Sheet2 wb)) process) as [target|e];
    [|exact Hwf].
  destruct (getitem (map col_Projectile (Sheet2 wb)) process) as [projectile|e];
    [|exact Hwf].
  cbv zeta.
  match goal with
  | |- context [make_dir ?pr ?tg ?l ?s ?m ?r ?w0] =>
      pose proof (make_dir_wf pr tg l s m r w0) as Hdir;
      destruct (make_dir pr tg l s m r w0) as [[run_dir|e] w1]
  end; simpl in Hdir.
  - apply make_input_wf, Hdir. now repeat apply wf_fs_say.
  - apply Hdir. now repeat apply wf_fs_say.
Qed.





(** X12.  A second run on the day of a run that ended normally, with the
    same workbook and arguments, ends normally as well and leaves the file
    system exactly as the first run left it: the directory is found to
    exist and the input file is overwritten with the same content. *)
Theorem main_again_same_file_system process a w w1 w1' :
  wf_fs w ->
  main_at process a w = (Ok tt, w1) ->
  fs w1' = fs w1 ->
  books w1' = books w ->
  strftime_dmy (now w1') = strftime_dmy (now w) ->
  exists w2,
    main_at process a w1' = (Ok tt, w2)
    /\ fs w2 = fs w1
    /\ last (stdout w2) = Some msg_overwriting.
Proof.
  intros Hwf Hrun Hfs Hbooks Hday.
  destruct (books w !! data a) as [wb|] eqn:Hwb;
    [|rewrite (main_at_missing_workbook _ _ _ Hwb) in Hrun; discriminate].
  assert (Hwb' : books w1' !! data a = Some wb) by (now rewrite Hbooks).
  rewrite (main_at_lookup _ _ _ _ Hwb) in Hrun.
  rewrite (main_at_lookup _ _ _ _ Hwb').
  destruct (getitem (map col_Target (Sheet2 wb)) process) as [target|e];
    [|discriminate].
  destruct (getitem (map col_Projectile (Sheet2 wb)) process) as [projectile|e];
    [|discriminate].
  cbv zeta in Hrun |- *.
  match type of Hrun with
  | context [make_dir ?pr ?tg ?l ?s ?m ?r ?w0] =>
      pose proof (make_dir_wf pr tg l s m r w0) as Hdwf;
      destruct (make_dir_result pr tg l s m r w0) as (wd & report & Hmd & _);
      rewrite Hmd in Hrun, Hdwf; simpl in Hdwf;
      set (name := directory_name_of (strftime_dmy (now w0)) pr tg l s m) in *
  end.
  assert (Hwfd : wf_fs wd) by (apply Hdwf; now repeat apply wf_fs_say).
  pose proof (make_input_wf (Sheet1 wb) (Sheet2 wb) process (ldmodel a)
                (strength a) (massmodel a) (runs a) name wd Hwfd) as Hwf1.
  rewrite Hrun in Hwf1. simpl in Hwf1.
  rewrite make_input_stages in Hrun.
  destruct (lookup_target (Sheet1 wb) (Sheet2 wb) process)
    as [[[pr Z_target] A_target]|e] eqn:Hlook; [|discriminate].
  destruct (write_file_Ok_inv _ _ _ _ _ Hrun) as (c & Hb & Hfs1 & Hnode).
  (* the run directory exists after the first run *)
  assert (Hfile1 : fs w1 !! input_path_of (runs a) name = Some (File true c))
    by (now rewrite <- node_at_nonroot by apply input_path_not_root).
  destruct (Hwf1 _ _ Hfile1) as [b Hdir]. rewrite parent_input_path in Hdir.
  (* the second run *)
  match goal with
  | |- context [make_dir ?pr ?tg ?l ?s ?m ?r ?w0] =>
      assert (Hname : directory_name_of (strftime_dmy (now w0)) pr tg l s m = name)
        by (unfold name; simpl; now rewrite Hday);
      assert (Hmk : Path_mkdir (length (r ++ [name])%list) (r ++ [name])%list
                      true false
                      (say (say w0 (msg_creating name)) (msg_to_path r))
                    = (Raise FileExistsError,
                       say (say w0 (msg_creating name)) (msg_to_path r)))
        by (apply (Path_mkdir_exists _ _ _ _ (Dir b));
            rewrite <- Hdir; apply node_at_fs_eq; simpl; exact Hfs);
      rewrite <- Hname in Hmk at 1 2 3 4;
      rewrite (make_dir_after_mkdir pr tg l s m r w0 _ _ Hmk), Hname
  end.
  rewrite make_input_stages, Hlook.
  match goal with
  | |- context [write_file ?p ?nm ?body ?w3] =>
      assert (Hn3 : node_at w3 p = Some (File true c))
        by (rewrite <- Hnode; apply node_at_fs_eq; simpl; exact Hfs);
      rewrite (write_file_overwrite p nm body c c w3 Hn3 Hb)
  end.
  eexists. split; [reflexivity|]. split.
  - simpl. rewrite Hfs, Hfs1. apply insert_insert_eq.
  - simpl. apply last_snoc.
Qed.

End Whole.

(** ** Integers through float64 *)

Lemma digits2_pos_iter_xO (p n : positive) :
  digits2_pos (Pos.iter xO p n) = (digits2_pos p + n)%positive.
Proof.
  induction n as [|n IH] using Pos.peano_ind.
  - simpl. lia.
  - rewrite Pos.iter_succ. simpl. rewrite IH. lia.
Qed.

Lemma Zpos_iter_xO (p n : positive) :
  Z.pos (Pos.iter xO p n) = Z.pos p * 2 ^ Z.pos n.
Proof.
  induction n as [|n IH] using Pos.peano_ind.
  - simpl. lia.
  - rewrite Pos.iter_succ, Pos2Z.inj_xO, IH, Pos2Z.inj_succ, Z.pow_succ_r by lia.
    ring.
Qed.

Lemma digits2_pos_lower (p : positive) :
  2 ^ (Z.pos (digits2_pos p) - 1) <= Z.pos p.
Proof.
  induction p as [p IH|p IH|]; simpl digits2_pos.
  - rewrite Pos2Z.inj_succ.
    replace (Z.succ (Z.pos (digits2_pos p)) - 1)
      with (Z.succ (Z.pos (digits2_pos p) - 1)) by lia.
    rewrite Z.pow_succ_r by lia. lia.
  - rewrite Pos2Z.inj_succ.
    replace (Z.succ (Z.pos (digits2_pos p)) - 1)
      with (Z.succ (Z.pos (digits2_pos p) - 1)) by lia.
    rewrite Z.pow_succ_r by lia. lia.
  - simpl. lia.
Qed.

Lemma digits2_pos_small (p : positive) :
  Z.pos p < 2 ^ 53 -> Z.pos (digits2_pos p) <= 53.
Proof.
  intros Hp. pose proof (digits2_pos_lower p) as Hl.
  destruct (Z.le_gt_cases (Z.pos (digits2_pos p)) 53) as [H|H]; [exact H|].
  assert (2 ^ 53 <= 2 ^ (Z.pos (digits2_pos p) - 1))
    by (apply Z.pow_le_mono_r; lia).
  lia.
Qed.

(** A mantissa of 53 bits with an exponent in range is a float as it
    stands. *)
Lemma binary_round_aux_exact (sx : bool) (mz : positive) (ez : Z) :
  Z.pos (digits2_pos mz) = 53 -> -1074 <= ez <= 971 ->
  binary_round_aux prec emax sx (Z.pos mz) ez loc_Exact = S754_finite sx mz ez.
Proof.
  intros Hd He.
  assert (Hshr : forall m, Z.pos (digits2_pos m) = 53 ->
            shr_fexp prec emax (Z.pos m) ez loc_Exact
            = ({| shr_m := Z.pos m; shr_r := false; shr_s := false |}, ez)).
  { intros m Hm. unfold shr_fexp, fexp, emin, prec, emax. simpl Zdigits2.
    rewrite Hm.
    replace (Z.max (53 + ez - 53) (3 - 1024 - 53) - ez) with 0 by lia.
    reflexivity. }
  unfold binary_round_aux. rewrite (Hshr mz Hd). simpl.
  rewrite (Hshr mz Hd). simpl.
  unfold emax, prec. destruct (Z.leb_spec ez (1024 - 53)); [reflexivity | lia].
Qed.

(** The float of a positive integer below 2^53: the integer shifted left to
    53 bits. *)
Lemma float_of_pos_small (sx : bool) (p : positive) :
  Z.pos p < 2 ^ 53 ->
  exists mz ez,
    binary_round prec emax sx p 0 = S754_finite sx mz ez
    /\ -52 <= ez <= 0
    /\ Z.pos mz = Z.pos p * 2 ^ (- ez).
Proof.
  intros Hp. pose proof (digits2_pos_small p Hp) as Hd.
  unfold binary_round, shl_align, fexp, emin, prec, emax.
  replace (Z.max (Z.pos (digits2_pos p) + 0 - 53) (3 - 1024 - 53))
    with (Z.pos (digits2_pos p) - 53) by lia.
  destruct (Z.pos (digits2_pos p) - 53 - 0) as [|k|k] eqn:Hk; [| lia |].
  - exists p, 0. split; [|split; [lia | simpl; lia]].
    apply binary_round_aux_exact; lia.
  - exists (Pos.iter xO p k), (Z.pos (digits2_pos p) - 53).
    split; [|split].
    + apply binary_round_aux_exact; [|lia].
      rewrite digits2_pos_iter_xO. lia.
    + lia.
    + rewrite Zpos_iter_xO. f_equal. f_equal. lia.
Qed.

Lemma int_of_float_scaled (sx : bool) (mz : positive) (ez p : Z) :
  ez <= 0 -> Z.pos mz = p * 2 ^ (- ez) ->
  int_of_float (S754_finite sx mz ez) = Ok (if sx then - p else p).
Proof.
  intros He Hm. unfold int_of_float.
  destruct (Z.leb_spec 0 ez).
  - assert (ez = 0) by lia. subst ez. simpl in Hm.
    rewrite Z.shiftl_0_r. replace (Z.pos mz) with p by lia. reflexivity.
  - rewrite Z.shiftr_div_pow2 by lia. rewrite Hm.
    rewrite Z.div_mul by (apply Z.pow_nonzero; lia). reflexivity.
Qed.

(** [int(float(z)) = z] below 2^53 *)
Lemma int_of_float_of_int (z : Z) :
  Z.abs z < 2 ^ 53 -> int_of_float (float_of_int z) = Ok z.
Proof.
  intros Hz. unfold float_of_int, binary_normalize.
  destruct z as [|p|p]; [reflexivity| |].
  - destruct (float_of_pos_small false p Hz) as (mz & ez & -> & He & Hm).
    now rewrite (int_of_float_scaled false mz ez (Z.pos p)) by (lia || exact Hm).
  - destruct (float_of_pos_small true p Hz) as (mz & ez & -> & He & Hm).
    now rewrite (int_of_float_scaled true mz ez (Z.pos p)) by (lia || exact Hm).
Qed.

Lemma milli_scaled (mz : positive) (ez p : Z) :
  ez <= 0 -> 0 < p -> Z.pos mz = p * 2 ^ (- ez) ->
  milli mz ez = p * 1000.
Proof.
  intros He Hp Hm. unfold milli.
  destruct (Z.leb_spec 0 ez).
  - assert (ez = 0) by lia. subst ez. simpl in Hm.
    rewrite Z.shiftl_0_r. lia.
  - unfold round_half_even_shr.
    assert (Hpow : 0 < 2 ^ (- ez)) by (apply Z.pow_pos_nonneg; lia).
    rewrite Z.shiftr_div_pow2 by lia.
    replace (Z.pos mz * 1000) with (p * 1000 * 2 ^ (- ez)) by lia.
    rewrite Z.div_mul by lia.
    rewrite Z.shiftl_mul_pow2 by lia.
    replace (p * 1000 * 2 ^ (- ez) - p * 1000 * 2 ^ (- ez)) with 0 by lia.
    rewrite Z.shiftl_mul_pow2 by lia.
    assert (0 < 1 * 2 ^ (- ez - 1)) by (apply Z.mul_pos_pos;
                                        [lia | apply Z.pow_pos_nonneg; lia]).
    destruct (Z.ltb_spec 0 (1 * 2 ^ (- ez - 1))); [reflexivity | lia].
Qed.

Lemma str_int_neg (p : positive) :
  str_int (Z.neg p) = ("-" ++ str_int (Z.pos p))%string.
Proof. reflexivity. Qed.

(** [f"{float(z):.3f}"] of an integer below 2^53 is the integer followed by
    [.000] *)
Lemma format_3f_of_int (z : Z) :
  Z.abs z < 2 ^ 53 ->
  format_3f (float_of_int z) = (str_int z ++ ".000")%string.
Proof.
  intros Hz. unfold float_of_int, binary_normalize.
  destruct z as [|p|p]; [reflexivity| |].
  - destruct (float_of_pos_small false p Hz) as (mz & ez & -> & He & Hm).
    unfold format_3f, fixed3.
    rewrite (milli_scaled mz ez (Z.pos p)) by (lia || exact Hm).
    rewrite Z.div_mul, Z.mod_mul by lia. reflexivity.
  - destruct (float_of_pos_small true p Hz) as (mz & ez & -> & He & Hm).
    unfold format_3f, fixed3.
    rewrite (milli_scaled mz ez (Z.pos p)) by (lia || exact Hm).
    rewrite Z.div_mul, Z.mod_mul by lia.
    rewrite str_int_neg. reflexivity.
Qed.

(** ** [str] of an integer, digit by digit *)

Lemma string_of_uint_of_list_app (l l' : list DecimalFacts.digits) :
  NilEmpty.string_of_uint (DecimalFacts.of_list (l ++ l')%list)
  = (NilEmpty.string_of_uint (DecimalFacts.of_list l)
       ++ NilEmpty.string_of_uint (DecimalFacts.of_list l'))%string.
Proof.
  induction l as [|d l IH]; [reflexivity|].
  destruct d; simpl; now rewrite IH.
Qed.

Lemma string_of_uint_app (u v : Decimal.uint) :
  NilEmpty.string_of_uint (Decimal.app u v)
  = (NilEmpty.string_of_uint u ++ NilEmpty.string_of_uint v)%string.
Proof.
  rewrite <- (DecimalFacts.of_list_to_list (Decimal.app u v)), DecimalFacts.app_spec.
  rewrite string_of_uint_of_list_app.
  now rewrite !DecimalFacts.of_list_to_list.
Qed.

(** the decimal digits of a positive number start with a digit that is not
    [0] *)
Lemma to_uint_unorm (p : positive) :
  Decimal.unorm (Pos.to_uint p) = Pos.to_uint p.
Proof.
  pose proof (DecimalPos.Unsigned.to_of (Pos.to_uint p)) as H.
  rewrite DecimalPos.Unsigned.of_to in H. simpl in H. now symmetry.
Qed.

Lemma unorm_app_fixed (u v : Decimal.uint) :
  Decimal.unorm u = u -> u <> Decimal.zero ->
  Decimal.unorm (Decimal.app u v) = Decimal.app u v.
Proof.
  intros Hu Hz.
  assert (Hcons : forall (c : Decimal.uint -> Decimal.uint) d u',
             (forall x, DecimalFacts.to_list (c x) = (d :: DecimalFacts.to_list x)%list) ->
             Decimal.app (c u') v = c (Decimal.app u' v)).
  { intros c d u' Hc. apply DecimalFacts.to_list_inj.
    now rewrite DecimalFacts.app_spec, !Hc, DecimalFacts.app_spec. }
  destruct u as [|u'|u'|u'|u'|u'|u'|u'|u'|u'|u'].
  - discriminate Hu.
  - exfalso. unfold Decimal.unorm in Hu.
    destruct (Decimal.nzhead (Decimal.D0 u')) eqn:E; try discriminate Hu;
      try (now apply Hz).
    injection Hu as Hu. subst. now apply DecimalFacts.nzhead_nonzero in E.
  - now rewrite (Hcons Decimal.D1 DecimalFacts.d1).
  - now rewrite (Hcons Decimal.D2 DecimalFacts.d2).
  - now rewrite (Hcons Decimal.D3 DecimalFacts.d3).
  - now rewrite (Hcons Decimal.D4 DecimalFacts.d4).
  - now rewrite (Hcons Decimal.D5 DecimalFacts.d5).
  - now rewrite (Hcons Decimal.D6 DecimalFacts.d6).
  - now rewrite (Hcons Decimal.D7 DecimalFacts.d7).
  - now rewrite (Hcons Decimal.D8 DecimalFacts.d8).
  - now rewrite (Hcons Decimal.D9 DecimalFacts.d9).
Qed.

Lemma of_uint_snoc (c : Decimal.uint -> Decimal.uint) (d : DecimalFacts.digits)
    (k : N) (u : Decimal.uint) :
  (forall x, DecimalFacts.to_list (c x) = (d :: DecimalFacts.to_list x)%list) ->
  (forall x, DecimalPos.Unsigned.of_lu (c x)
             = (k + 10 * DecimalPos.Unsigned.of_lu x)%N) ->
  Pos.of_uint (Decimal.app u (c Decimal.Nil)) = (k + 10 * Pos.of_uint u)%N.
Proof.
  intros Hc Hk.
  rewrite !DecimalPos.Unsigned.of_uint_alt.
  replace (Decimal.rev (Decimal.app u (c Decimal.Nil))) with (c (Decimal.rev u)).
  - apply Hk.
  - apply DecimalFacts.to_list_inj.
    rewrite Hc, !DecimalFacts.rev_spec, DecimalFacts.app_spec, Hc.
    simpl. now rewrite List.rev_app_distr.
Qed.

(** the digits of [10 * p + d] are those of [p] followed by the digit [d] *)
Lemma to_uint_tenfold (p : positive) (d : N) :
  (d <= 9)%N ->
  N.to_uint (10 * N.pos p + d) = Decimal.app (Pos.to_uint p) (N.to_uint d).
Proof.
  intros Hd.
  rewrite <- (unorm_app_fixed (Pos.to_uint p) (N.to_uint d)
                (to_uint_unorm p) (DecimalPos.Unsigned.to_uint_nonzero p)).
  rewrite <- DecimalPos.Unsigned.to_of. f_equal.
  assert (Hcases : (d = 0 \/ d = 1 \/ d = 2 \/ d = 3 \/ d = 4 \/ d = 5 \/ d = 6
                    \/ d = 7 \/ d = 8 \/ d = 9)%N) by lia.
  pose proof (DecimalPos.Unsigned.of_to p) as Hp.
  destruct Hcases as [->|[->|[->|[->|[->|[->|[->|[->|[->| ->]]]]]]]]];
    cbn [N.to_uint Pos.to_uint Pos.to_little_uint Decimal.rev Decimal.revapp].
  - rewrite (of_uint_snoc Decimal.D0 DecimalFacts.d0 0%N); [lia | easy | easy].
  - rewrite (of_uint_snoc Decimal.D1 DecimalFacts.d1 1%N); [lia | easy | easy].
  - rewrite (of_uint_snoc Decimal.D2 DecimalFacts.d2 2%N); [lia | easy | easy].
  - rewrite (of_uint_snoc Decimal.D3 DecimalFacts.d3 3%N); [lia | easy | easy].
  - rewrite (of_uint_snoc Decimal.D4 DecimalFacts.d4 4%N); [lia | easy | easy].
  - rewrite (of_uint_snoc Decimal.D5 DecimalFacts.d5 5%N); [lia | easy | easy].
  - rewrite (of_uint_snoc Decimal.D6 DecimalFacts.d6 6%N); [lia | easy | easy].
  - rewrite (of_uint_snoc Decimal.D7 DecimalFacts.d7 7%N); [lia | easy | easy].
  - rewrite (of_uint_snoc Decimal.D8 DecimalFacts.d8 8%N); [lia | easy | easy].
  - rewrite (of_uint_snoc Decimal.D9 DecimalFacts.d9 9%N); [lia | easy | easy].
Qed.

Lemma string_of_uint_nonnil (u : Decimal.uint) :
  u <> Decimal.Nil -> NilZero.string_of_uint u = NilEmpty.string_of_uint u.
Proof. now destruct u. Qed.

Lemma app_nonnil (u v : Decimal.uint) :
  v <> Decimal.Nil -> Decimal.app u v <> Decimal.Nil.
Proof.
  intros Hv H. apply (f_equal DecimalFacts.to_list) in H.
  rewrite DecimalFacts.app_spec in H. simpl in H.
  apply app_eq_nil in H as [_ H].
  apply Hv, DecimalFacts.to_list_inj. exact H.
Qed.

Lemma N_to_uint_nonnil (n : N) : N.to_uint n <> Decimal.Nil.
Proof.
  destruct n; [discriminate | apply DecimalPos.Unsigned.to_uint_nonnil].
Qed.

(** [str(10 * l + d) = str(l) + str(d)] for a positive [l] and a digit [d] *)
Lemma str_int_tenfold (l d : Z) :
  0 < l -> 0 <= d <= 9 -> str_int (10 * l + d) = (str_int l ++ str_int d)%string.
Proof.
  intros Hl Hd. unfold str_int.
  destruct l as [|p|p]; try lia.
  assert (Hsum : Z.to_int (10 * Z.pos p + d)
                 = Decimal.Pos (N.to_uint (10 * N.pos p + Z.to_N d))).
  { replace (10 * Z.pos p + d) with (Z.of_N (10 * N.pos p + Z.to_N d)) by lia.
    now destruct (10 * N.pos p + Z.to_N d)%N. }
  assert (Hdig : Z.to_int d = Decimal.Pos (N.to_uint (Z.to_N d))).
  { destruct d; try lia; reflexivity. }
  rewrite Hsum, Hdig, to_uint_tenfold by lia.
  cbn [Z.to_int NilZero.string_of_int].
  rewrite !string_of_uint_nonnil
    by (try apply app_nonnil; try apply N_to_uint_nonnil;
        apply DecimalPos.Unsigned.to_uint_nonnil).
  apply string_of_uint_app.
Qed.

(** ** A row of integers on its way to the file *)

(** a member of [dropna (assign ...)] sits at one position of the table and
    of the three converted columns *)
Lemma In_dropna_assign (df : list nuclide) (zs as_ ms : list num) (r : me_row) :
  In r (dropna (assign df zs as_ ms)) ->
  exists i : nat,
    df !! i = Some (base r) /\ zs !! i = Some (Z_num r)
    /\ as_ !! i = Some (A_num r) /\ ms !! i = Some (ME_num r).
Proof.
  unfold dropna. intros H. apply filter_In in H as [H _].
  revert zs as_ ms H.
  induction df as [|x df IH]; intros zs as_ ms H; [destruct H|].
  destruct zs as [|z zs]; [destruct H|].
  destruct as_ as [|a as_]; [destruct H|].
  destruct ms as [|me ms]; [destruct H|].
  destruct H as [<-|H].
  - exists 0%nat. repeat split; reflexivity.
  - destruct (IH _ _ _ H) as (i & H1 & H2 & H3 & H4).
    exists (S i). repeat split; assumption.
Qed.

Section Columns.

Context {lib : Library}.

(** a value of a converted column is the value of its own cell, upcast to
    a float when the column is float64 *)
Lemma to_numeric_lookup (col : list cell) (i : nat) (n : num) :
  to_numeric col !! i = Some n ->
  exists c, col !! i = Some c
            /\ (n = to_numeric_cell c \/ n = upcast (to_numeric_cell c)).
Proof.
  unfold to_numeric.
  destruct (forallb is_int (map to_numeric_cell col)); intros H.
  - rewrite list_lookup_fmap in H.
    destruct (col !! i) as [c|]; [|discriminate].
    injection H as <-. exists c. split; [reflexivity | now left].
  - rewrite <- list_fmap_compose, list_lookup_fmap in H.
    destruct (col !! i) as [c|]; [|discriminate].
    injection H as <-. exists c. split; [reflexivity | now right].
Qed.

Lemma df_me_cells (nucl_info : list nuclide) (r : me_row) :
  In r (df_me_of nucl_info) ->
  (Z_num r = to_numeric_cell (col_Z (base r))
   \/ Z_num r = upcast (to_numeric_cell (col_Z (base r))))
  /\ (A_num r = to_numeric_cell (col_A (base r))
      \/ A_num r = upcast (to_numeric_cell (col_A (base r))))
  /\ (ME_num r = to_numeric_cell (col_MEJYFL (base r))
      \/ ME_num r = upcast (to_numeric_cell (col_MEJYFL (base r)))).
Proof.
  unfold df_me_of. intros H.
  apply In_dropna_assign in H as (i & Hb & Hz & Ha & Hm).
  apply to_numeric_lookup in Hz as (cz & Hcz & Hz).
  apply to_numeric_lookup in Ha as (ca & Hca & Ha).
  apply to_numeric_lookup in Hm as (cm & Hcm & Hm).
  rewrite list_lookup_fmap, Hb in Hcz, Hca, Hcm.
  injection Hcz as <-. injection Hca as <-. injection Hcm as <-.
  auto.
Qed.

Lemma py_float_upcast (n : num) : py_float (upcast n) = py_float n.
Proof. now destruct n. Qed.

Lemma py_int_int_column (z : Z) (n : num) :
  Z.abs z < 2 ^ 53 -> n = NInt z \/ n = upcast (NInt z) -> py_int n = Ok z.
Proof.
  intros Hz [->| ->]; [reflexivity|]. simpl. now apply int_of_float_of_int.
Qed.

(** X13.  A row that reaches the loop of [write_input] with integer cells
    for Z and A, each below 2^53 in magnitude, is written with exactly those
    integers and with the mass excess of its own cell, whatever the other
    rows hold: a column that another row turned into float64 gives the same
    line. *)
Theorem integer_row_is_written_exactly
    (nucl_info : list nuclide) (r : me_row) (z a : Z) (buf : string) :
  In r (df_me_of nucl_info) ->
  col_Z (base r) = CInt z -> col_A (base r) = CInt a ->
  Z.abs z < 2 ^ 53 -> Z.abs a < 2 ^ 53 ->
  massexcess_entry (tuple_of r) buf
  = (Ok tt,
     buf ++ "massexcess " ++ str_int z ++ " " ++ str_int a ++ " "
       ++ format_3f (py_float (to_numeric_cell (col_MEJYFL (base r)))) ++ nl).
Proof.
  intros Hin HZ HA Hz Ha.
  destruct (df_me_cells _ _ Hin) as (Hzc & Hac & Hmc).
  rewrite HZ in Hzc. rewrite HA in Hac. simpl to_numeric_cell in Hzc, Hac.
  unfold massexcess_entry, tuple_of. cbv beta iota.
  rewrite bind_lift, (py_int_int_column z _ Hz Hzc).
  rewrite bind_lift, (py_int_int_column a _ Ha Hac).
  replace (py_float (ME_num r))
    with (py_float (to_numeric_cell (col_MEJYFL (base r))))
    by (destruct Hmc as [->| ->]; [reflexivity | now rewrite py_float_upcast]).
  reflexivity.
Qed.

(** X14.  An integer mass excess below 2^53 in magnitude is printed as the
    integer followed by [.000]. *)
Theorem integer_mass_excess_gets_three_zeros
    (nucl_info : list nuclide) (r : me_row) (me : Z) :
  In r (df_me_of nucl_info) ->
  col_MEJYFL (base r) = CInt me -> Z.abs me < 2 ^ 53 ->
  format_3f (py_float (ME_num r)) = str_int me ++ ".000".
Proof.
  intros Hin HM Hme.
  destruct (df_me_cells _ _ Hin) as (_ & _ & Hmc).
  rewrite HM in Hmc. simpl to_numeric_cell in Hmc.
  replace (py_float (ME_num r)) with (float_of_int me)
    by (destruct Hmc as [->| ->]; reflexivity).
  now apply format_3f_of_int.
Qed.

End Columns.

(** Above 2^53 the upcast does lose the integer: 2^53 + 1 comes back as
    2^53. *)
Example upcast_rounds_above_2_53 :
  py_int (upcast (NInt (2 ^ 53 + 1))) = Ok (2 ^ 53).
Proof. vm_compute. reflexivity. Qed.

(** ** Two settings, one directory *)

(** X15.  The three model numbers are written one after the other without a
    separator, so moving a digit from the front of [strength] to the end of
    [ldmodel] gives the same name: [make_dir] does exactly the same for both
    settings. *)
Theorem make_dir_cannot_tell_shifted_digits
    (projectile target : string) (l s b m : Z) (runs : path) (w : world) :
  0 < l -> 1 <= s <= 9 -> 0 <= b <= 9 ->
  make_dir projectile target l (10 * s + b) m runs w
  = make_dir projectile target (10 * l + s) b m runs w.
Proof.
  intros Hl Hs Hb.
  assert (Hname : forall today,
            directory_name_of today projectile target l (10 * s + b) m
            = directory_name_of today projectile target (10 * l + s) b m).
  { intros today. unfold directory_name_of.
    rewrite !str_int_tenfold by lia.
    rewrite <- !append_assoc. reflexivity. }
  unfold make_dir. rewrite Hname. reflexivity.
Qed.

(** * The hypotheses of the further properties are met *)

Lemma wf_fs_scenario_A : wf_fs Sample.scenario_A.
Proof.
  intros p n H. unfold Sample.scenario_A, Sample.fresh in H. simpl in H.
  rewrite lookup_empty in H. discriminate.
Qed.





(** X2 when the run directory of scenario A exists. *)
Lemma make_dir_keeps_existing_entry_witness :
  node_at (Sample.with_run_dir Sample.scenario_A)
    (Sample.runs_dir
       ++ [directory_name_of
             (strftime_dmy (now (Sample.with_run_dir Sample.scenario_A)))
             "p" "56Ni" 5 8 2])%list
  = Some (Dir true)
  /\ make_dir "p" "56Ni" 5 8 2 Sample.runs_dir
       (Sample.with_run_dir Sample.scenario_A)
     = (Ok Sample.run_A,
        say (say (say (Sample.with_run_dir Sample.scenario_A)
                    (msg_creating Sample.run_A))
               (msg_to_path Sample.runs_dir))
          (msg_dir_exists Sample.run_A)).
Proof.
  assert (H1 : node_at (Sample.with_run_dir Sample.scenario_A)
                 (Sample.runs_dir
                    ++ [directory_name_of
                          (strftime_dmy
                             (now (Sample.with_run_dir Sample.scenario_A)))
                          "p" "56Ni" 5 8 2])%list
               = Some (Dir true))
    by (vm_compute; reflexivity).
  split; [exact H1|].
  exact (make_dir_keeps_existing_entry "p" "56Ni" 5 8 2 Sample.runs_dir
           (Sample.with_run_dir Sample.scenario_A) (Dir true) H1).
Defined.


(** X5 for the directory [runs] in scenario A. *)
Lemma make_input_touches_only_its_file_witness :
  Sample.runs_dir <> input_path_of Sample.runs_dir Sample.run_A
  /\ fs (snd (make_input (lib := Sample.plain) [Sample.Ni56] [Sample.p_Ni56] 0
                5 8 2 Sample.runs_dir Sample.run_A
                (Sample.with_run_dir Sample.scenario_A))) !! Sample.runs_dir
     = fs (Sample.with_run_dir Sample.scenario_A) !! Sample.runs_dir
  /\ books (snd (make_input (lib := Sample.plain) [Sample.Ni56] [Sample.p_Ni56]
                   0 5 8 2 Sample.runs_dir Sample.run_A
                   (Sample.with_run_dir Sample.scenario_A)))
     = books (Sample.with_run_dir Sample.scenario_A)
  /\ now (snd (make_input (lib := Sample.plain) [Sample.Ni56] [Sample.p_Ni56]
                 0 5 8 2 Sample.runs_dir Sample.run_A
                 (Sample.with_run_dir Sample.scenario_A)))
     = now (Sample.with_run_dir Sample.scenario_A).
Proof.
  assert (H1 : Sample.runs_dir <> input_path_of Sample.runs_dir Sample.run_A)
    by discriminate.
  split; [exact H1|].
  exact (make_input_touches_only_its_file (lib := Sample.plain)
           [Sample.Ni56] [Sample.p_Ni56] 0 5 8 2 Sample.runs_dir Sample.run_A
           (Sample.with_run_dir Sample.scenario_A) Sample.runs_dir H1).
Defined.


(** X7 at a table whose second row has an infinite proton number. *)
Lemma make_input_stops_at_infinite_row_witness :
  0 <= 0
  /\ [Sample.p_Ni56] !! Z.to_nat 0 = Some Sample.p_Ni56
  /\ List.filter (fun r => cell_eq_str (col_Ydin r) (col_Target Sample.p_Ni56))
       Cases.infinite_in_the_middle = [Sample.Ni56]
  /\ int_cell (lib := Sample.plain) (col_Z Sample.Ni56) = Ok 28
  /\ int_cell (lib := Sample.plain) (col_A Sample.Ni56) = Ok 56
  /\ df_me_of (lib := Sample.plain) Cases.infinite_in_the_middle
     = ([Cases.row_Ni56] ++ Cases.row_X :: [Cases.row_Zn60])%list
  /\ Forall finite_ZA [Cases.row_Ni56]
  /\ ~ finite_ZA Cases.row_X
  /\ openable (Sample.with_run_dir Sample.scenario_A)
       (input_path_of Sample.runs_dir Sample.run_A) = true
  /\ exists w',
      make_input (lib := Sample.plain) Cases.infinite_in_the_middle
        [Sample.p_Ni56] 0 5 8 2 Sample.runs_dir Sample.run_A
        (Sample.with_run_dir Sample.scenario_A)
      = (Raise OverflowError, w')
      /\ file_at w' (input_path_of Sample.runs_dir Sample.run_A)
         = Some (text (Spec.fixed_lines (col_Projectile Sample.p_Ni56) 28 56 5 8 2
                         ++ map Spec.massexcess_line [Cases.row_Ni56])).
Proof.
  assert (H1 : 0 <= 0) by lia.
  assert (H2 : [Sample.p_Ni56] !! Z.to_nat 0 = Some Sample.p_Ni56)
    by reflexivity.
  assert (H3 : List.filter
                 (fun r => cell_eq_str (col_Ydin r) (col_Target Sample.p_Ni56))
                 Cases.infinite_in_the_middle = [Sample.Ni56])
    by (vm_compute; reflexivity).
  assert (H4 : int_cell (lib := Sample.plain) (col_Z Sample.Ni56) = Ok 28)
    by reflexivity.
  assert (H5 : int_cell (lib := Sample.plain) (col_A Sample.Ni56) = Ok 56)
    by reflexivity.
  assert (H6 : df_me_of (lib := Sample.plain) Cases.infinite_in_the_middle
               = ([Cases.row_Ni56] ++ Cases.row_X :: [Cases.row_Zn60])%list)
    by (vm_compute; reflexivity).
  assert (H7 : Forall finite_ZA [Cases.row_Ni56])
    by (repeat constructor).
  assert (H8 : ~ finite_ZA Cases.row_X)
    by (intros [H _]; discriminate H).
  assert (H9 : openable (Sample.with_run_dir Sample.scenario_A)
                 (input_path_of Sample.runs_dir Sample.run_A) = true)
    by (vm_compute; reflexivity).
  repeat (split; [assumption|]).
  exact (make_input_stops_at_infinite_row (lib := Sample.plain)
           Cases.infinite_in_the_middle [Sample.p_Ni56] 0 5 8 2
           Sample.runs_dir Sample.run_A (Sample.with_run_dir Sample.scenario_A)
           Sample.p_Ni56 Sample.Ni56 [] 28 56
           [Cases.row_Ni56] Cases.row_X [Cases.row_Zn60]
           H1 H2 H3 H4 H5 H6 H7 H8 H9).
Defined.

(** X8 when the input file exists and is read-only. *)
Lemma make_input_cannot_overwrite_witness :
  0 <= 0
  /\ [Sample.p_Ni56] !! Z.to_nat 0 = Some Sample.p_Ni56
  /\ List.filter (fun r => cell_eq_str (col_Ydin r) (col_Target Sample.p_Ni56))
       [Sample.Ni56] = [Sample.Ni56]
  /\ int_cell (lib := Sample.plain) (col_Z Sample.Ni56) = Ok 28
  /\ int_cell (lib := Sample.plain) (col_A Sample.Ni56) = Ok 56
  /\ node_at Cases.read_only_input (input_path_of Sample.runs_dir Sample.run_A)
     = Some (File false "old")
  /\ (false = false /\ PermissionError = PermissionError)
  /\ make_input (lib := Sample.plain) [Sample.Ni56] [Sample.p_Ni56] 0 5 8 2
       Sample.runs_dir Sample.run_A Cases.read_only_input
     = (Raise PermissionError,
        say (say Cases.read_only_input (msg_created Sample.run_A))
          msg_overwriting).
Proof.
  assert (H1 : 0 <= 0) by lia.
  assert (H2 : [Sample.p_Ni56] !! Z.to_nat 0 = Some Sample.p_Ni56)
    by reflexivity.
  assert (H3 : List.filter
                 (fun r => cell_eq_str (col_Ydin r) (col_Target Sample.p_Ni56))
                 [Sample.Ni56] = [Sample.Ni56])
    by (vm_compute; reflexivity).
  assert (H4 : int_cell (lib := Sample.plain) (col_Z Sample.Ni56) = Ok 28)
    by reflexivity.
  assert (H5 : int_cell (lib := Sample.plain) (col_A Sample.Ni56) = Ok 56)
    by reflexivity.
  assert (H6 : node_at Cases.read_only_input
                 (input_path_of Sample.runs_dir Sample.run_A)
               = Some (File false "old"))
    by (vm_compute; reflexivity).
  assert (H7 : false = false /\ PermissionError = PermissionError)
    by (split; reflexivity).
  repeat (split; [assumption|]).
  exact (make_input_cannot_overwrite (lib := Sample.plain)
           [Sample.Ni56] [Sample.p_Ni56] 0 5 8 2 Sample.runs_dir Sample.run_A
           Cases.read_only_input Sample.p_Ni56 Sample.Ni56 [] 28 56
           (File false "old") PermissionError H1 H2 H3 H4 H5 H6 H7).
Defined.

(** X9 on the empty disk of scenario A. *)
Lemma main_keeps_entries_in_directories_witness :
  wf_fs Sample.scenario_A
  /\ wf_fs (snd (main_at (lib := Sample.plain) 0 Sample.default_args
                   Sample.scenario_A)).
Proof.
  assert (H1 : wf_fs Sample.scenario_A) by exact wf_fs_scenario_A.
  split; [exact H1|].
  exact (main_keeps_entries_in_directories (lib := Sample.plain) 0
           Sample.default_args Sample.scenario_A H1).
Defined.



(** X12 in scenario A, the second run starting where the first one ended. *)
Lemma main_again_same_file_system_witness :
  wf_fs Sample.scenario_A
  /\ main_at (lib := Sample.plain) 0 Sample.default_args Sample.scenario_A
     = (Ok tt,
        snd (main_at (lib := Sample.plain) 0 Sample.default_args
               Sample.scenario_A))
  /\ books (snd (main_at (lib := Sample.plain) 0 Sample.default_args
                   Sample.scenario_A))
     = books Sample.scenario_A
  /\ strftime_dmy (now (snd (main_at (lib := Sample.plain) 0 Sample.default_args
                               Sample.scenario_A)))
     = strftime_dmy (now Sample.scenario_A)
  /\ exists w2,
      main_at (lib := Sample.plain) 0 Sample.default_args
        (snd (main_at (lib := Sample.plain) 0 Sample.default_args
                Sample.scenario_A))
      = (Ok tt, w2)
      /\ fs w2
         = fs (snd (main_at (lib := Sample.plain) 0 Sample.default_args
                      Sample.scenario_A))
      /\ last (stdout w2) = Some msg_overwriting.
Proof.
  assert (H1 : wf_fs Sample.scenario_A) by exact wf_fs_scenario_A.
  assert (H2 : main_at (lib := Sample.plain) 0 Sample.default_args
                 Sample.scenario_A
               = (Ok tt,
                  snd (main_at (lib := Sample.plain) 0 Sample.default_args
                         Sample.scenario_A)))
    by (vm_compute; reflexivity).
  assert (H3 : books (snd (main_at (lib := Sample.plain) 0 Sample.default_args
                             Sample.scenario_A))
               = books Sample.scenario_A)
    by (vm_compute; reflexivity).
  assert (H4 : strftime_dmy
                 (now (snd (main_at (lib := Sample.plain) 0 Sample.default_args
                              Sample.scenario_A)))
               = strftime_dmy (now Sample.scenario_A))
    by (vm_compute; reflexivity).
  repeat (split; [assumption|]).
  exact (main_again_same_file_system (lib := Sample.plain) 0
           Sample.default_args Sample.scenario_A _ _ H1 H2 eq_refl H3 H4).
Defined.

(** X13 at the first row of a table whose column Z is float64. *)
Lemma integer_row_is_written_exactly_witness :
  In Cases.row_Ni56 (df_me_of (lib := Sample.plain) Cases.infinite_in_the_middle)
  /\ col_Z (base Cases.row_Ni56) = CInt 28
  /\ col_A (base Cases.row_Ni56) = CInt 56
  /\ Z.abs 28 < 2 ^ 53
  /\ Z.abs 56 < 2 ^ 53
  /\ massexcess_entry (tuple_of Cases.row_Ni56) EmptyString
     = (Ok tt,
        EmptyString ++ "massexcess " ++ str_int 28 ++ " " ++ str_int 56 ++ " "
          ++ format_3f
               (py_float
                  (to_numeric_cell (lib := Sample.plain)
                     (col_MEJYFL (base Cases.row_Ni56)))) ++ nl).
Proof.
  assert (H1 : In Cases.row_Ni56
                 (df_me_of (lib := Sample.plain) Cases.infinite_in_the_middle))
    by (vm_compute; left; reflexivity).
  assert (H2 : col_Z (base Cases.row_Ni56) = CInt 28) by reflexivity.
  assert (H3 : col_A (base Cases.row_Ni56) = CInt 56) by reflexivity.
  assert (H4 : Z.abs 28 < 2 ^ 53) by reflexivity.
  assert (H5 : Z.abs 56 < 2 ^ 53) by reflexivity.
  repeat (split; [assumption|]).
  exact (integer_row_is_written_exactly (lib := Sample.plain)
           Cases.infinite_in_the_middle Cases.row_Ni56 28 56 EmptyString
           H1 H2 H3 H4 H5).
Defined.

(** X14 at a mass excess of -54 in a column that is float64. *)
Lemma integer_mass_excess_gets_three_zeros_witness :
  In Cases.row_Ni56_integer_mass
    (df_me_of (lib := Sample.plain) [Cases.Ni56_integer_mass; Sample.Zn60])
  /\ col_MEJYFL (base Cases.row_Ni56_integer_mass) = CInt (-54)
  /\ Z.abs (-54) < 2 ^ 53
  /\ format_3f (py_float (ME_num Cases.row_Ni56_integer_mass))
     = str_int (-54) ++ ".000".
Proof.
  assert (H1 : In Cases.row_Ni56_integer_mass
                 (df_me_of (lib := Sample.plain)
                    [Cases.Ni56_integer_mass; Sample.Zn60]))
    by (vm_compute; left; reflexivity).
  assert (H2 : col_MEJYFL (base Cases.row_Ni56_integer_mass) = CInt (-54))
    by reflexivity.
  assert (H3 : Z.abs (-54) < 2 ^ 53) by reflexivity.
  repeat (split; [assumption|]).
  exact (integer_mass_excess_gets_three_zeros (lib := Sample.plain)
           [Cases.Ni56_integer_mass; Sample.Zn60] Cases.row_Ni56_integer_mass
           (-54) H1 H2 H3).
Defined.

(** X15: [--ldmodel 5 --strength 81] and [--ldmodel 58 --strength 1]. *)
Lemma make_dir_cannot_tell_shifted_digits_witness :
  0 < 5 /\ 1 <= 8 <= 9 /\ 0 <= 1 <= 9
  /\ make_dir "p" "56Ni" 5 (10 * 8 + 1) 2 Sample.runs_dir Sample.scenario_A
     = make_dir "p" "56Ni" (10 * 5 + 8) 1 2 Sample.runs_dir Sample.scenario_A.
Proof.
  assert (H1 : 0 < 5) by lia.
  assert (H2 : 1 <= 8 <= 9) by lia.
  assert (H3 : 0 <= 1 <= 9) by lia.
  repeat (split; [assumption|]).
  exact (make_dir_cannot_tell_shifted_digits "p" "56Ni" 5 8 1 2
           Sample.runs_dir Sample.scenario_A H1 H2 H3).
Defined.
